(** * py-ethpm: link references in compiled bytecode

    A shallow embedding of the bytecode part of [ethpm/tools/builder.py]
    (normalising a compiler's output: validating and zeroing the link
    reference slots of a hex bytecode string, collecting the link reference
    records) and of the deployment helpers exercised by
    [tests/ethpm/test_deployments.py].

    Python values are modelled as follows.
    - [int] is [Z]; nothing in this code wraps around.
    - the hex bytecode, a [str] that is sliced and concatenated, is a
      [list ascii]; [bytes] buffers are [list ascii] as well.
    - a [str] that is only compared (dict keys, contract and symbol names)
      is a [string].
    - a [dict] is an association list in insertion order, since the code
      iterates over [.keys()], [.values()] and [.items()].
    - a raised exception is the [Raise] case of [result]. *)

From Stdlib Require Import ZArith Ascii String List Sorted Lia.
From stdpp Require Import base list strings gmap.
Import ListNotations.

Local Open Scope Z_scope.

(** ** Python primitives *)

Module Py.

(** The exception classes that the modelled code can raise. *)
Inductive exn : Type :=
| ValidationError
| ManifestBuildingError
| BytecodeLinkingError
| IndexError
| KeyError
| ValueError.

Inductive result (A : Type) : Type :=
| Ok (a : A)
| Raise (e : exn).
Arguments Ok {A} a.
Arguments Raise {A} e.

Definition bind {A B} (r : result A) (k : A -> result B) : result B :=
  match r with
  | Ok a => k a
  | Raise e => Raise e
  end.

(** [list(f(x) for x in xs)] where [f] may raise: the first exception
    escapes and nothing is returned. *)
Fixpoint traverse {A B} (f : A -> result B) (xs : list A) : result (list B) :=
  match xs with
  | [] => Ok []
  | x :: xs' =>
      bind (f x) (fun y => bind (traverse f xs') (fun ys => Ok (y :: ys)))
  end.

(** Where a slice bound [i] lands in a sequence of [n] items: a negative
    bound counts from the end, and every bound is clamped to [0..n]. *)
Definition clamp (n : nat) (i : Z) : nat :=
  if i <? 0 then Z.to_nat (Z.max 0 (i + Z.of_nat n))
  else Nat.min (Z.to_nat i) n.

(** [s[lo:hi]] *)
Definition slice {A} (s : list A) (lo hi : Z) : list A :=
  let l := clamp (length s) lo in
  let h := clamp (length s) hi in
  take (h - l) (drop l s).

(** [s[:hi]] *)
Definition slice_to {A} (s : list A) (hi : Z) : list A :=
  take (clamp (length s) hi) s.

(** [s[lo:]] *)
Definition slice_from {A} (s : list A) (lo : Z) : list A :=
  drop (clamp (length s) lo) s.

(** [c * n] for a one-character string [c]: empty when [n <= 0]. *)
Definition repeat_char (c : ascii) (n : Z) : list ascii :=
  replicate (Z.to_nat n) c.

(** [!=] on [str]. *)
Definition str_ne (a b : list ascii) : bool :=
  if decide (a = b) then false else true.

(** [cytoolz.pipe(data, *fns)]: thread [data] through [fns], left to
    right. *)
Definition pipe {A} (data : A) (fns : list (A -> A)) : A :=
  fold_left (fun d f => f d) fns data.

(** The same when a stage may raise: the first exception stops the
    pipeline. *)
Fixpoint pipe_raising {A} (data : A) (fns : list (A -> result A)) : result A :=
  match fns with
  | [] => Ok data
  | f :: fns' => bind (f data) (fun d => pipe_raising d fns')
  end.

End Py.

Import Py.

Notation "'let*' x ':=' c1 'in' c2" := (bind c1 (fun x => c2))
  (at level 10, x pattern, c1 at level 100, c2 at level 200, only parsing).

(** A [dict] with [str] keys, in insertion order. *)
Abbreviation dict V := (list (string * V)).

Definition keys {V} (d : dict V) : list string := map fst d.
Definition values {V} (d : dict V) : list V := map snd d.

(** [d[k]], raising [KeyError] for a missing key. *)
Fixpoint getitem {V} (d : dict V) (k : string) : result V :=
  match d with
  | [] => Raise KeyError
  | (k', v) :: d' => if decide (k' = k) then Ok v else getitem d' k
  end.

(** [d.get(k)] *)
Fixpoint get {V} (d : dict V) (k : string) : option V :=
  match d with
  | [] => None
  | (k', v) :: d' => if decide (k' = k) then Some v else get d' k
  end.

(** [d[k] = v]: an existing key keeps its position, a new one goes last. *)
Fixpoint setitem {V} (d : dict V) (k : string) (v : V) : dict V :=
  match d with
  | [] => [(k, v)]
  | (k', v') :: d' =>
      if decide (k' = k) then (k, v) :: d' else (k', v') :: setitem d' k v
  end.

(** [dict(pairs)], which is what [@to_dict] does with the yielded pairs. *)
Definition to_dict {V} (pairs : list (string * V)) : dict V :=
  fold_left (fun d kv => setitem d kv.1 kv.2) pairs [].

(** [str] literals for sliced strings. *)
Definition str (x : string) : list ascii := list_ascii_of_string x.

(** ** eth_utils *)

(** [eth_utils.is_0x_prefixed]: [value.startswith(("0x", "0X"))]. *)
Definition is_0x_prefixed (value : list ascii) : bool :=
  match value with
  | "0"%char :: "x"%char :: _ => true
  | "0"%char :: "X"%char :: _ => true
  | _ => false
  end.

(** [eth_utils.add_0x_prefix]: a value that has the prefix is returned as
    it is, any other gets ["0x"] in front. *)
Definition add_0x_prefix (value : list ascii) : list ascii :=
  if is_0x_prefixed value then value else str "0x" ++ value.

(** ** ethpm/tools/builder.py *)

(** One entry of the compiler's [linkReferences]: [{"start": .., "length": ..}],
    both counted in bytes. *)
Record RawLinkSlot : Type := mkRawLinkSlot {
  start : Z;
  slot_length : Z
}.

(** The compiler's [linkReferences]: source path, then symbol name, then the
    list of byte ranges. *)
Abbreviation LinkRefs := (dict (dict (list RawLinkSlot))).

(** An entry of the manifest's [link_references]. *)
Record LinkReference : Type := mkLinkReference {
  name : string;
  length_ : Z;
  offsets : list Z
}.

Definition marker : list ascii := str "__".

(** [validate_link_ref(offset, length, bytecode)], where [offset] and
    [length] count hex characters. *)
Definition validate_link_ref (offset length : Z) (bytecode : list ascii)
  : result (list ascii) :=
  let slot_length := offset + length in
  let slot := slice bytecode offset slot_length in
  if str_ne (slice_to slot 2) marker && str_ne (slice_from slot (-2)) marker
  then Raise ValidationError
  else Ok bytecode.

(** [replace_link_ref_in_bytecode(offset, length, bytecode)] *)
Definition replace_link_ref_in_bytecode (offset length : Z) (bytecode : list ascii)
  : list ascii :=
  let new_bytes :=
    slice_to bytecode offset ++ repeat_char "0" length
      ++ slice_from bytecode (offset + length) in
  new_bytes.

(** [cytoolz.concat(all_offsets)] in [process_bytecode]: every byte range
    of the map, in iteration order. *)
Definition all_refs (link_refs : LinkRefs) : list RawLinkSlot :=
  let all_offsets := flat_map (fun x => values x) (values link_refs) in
  concat all_offsets.

(** [process_bytecode(link_refs, bytecode)] *)
Definition process_bytecode (link_refs : LinkRefs) (bytecode : list ascii)
  : result (list ascii) :=
  let validate_link_ref_fns :=
    map (fun ref => validate_link_ref (start ref * 2) (slot_length ref * 2))
        (all_refs link_refs) in
  let* _ := pipe_raising bytecode validate_link_ref_fns in
  let link_fns :=
    map (fun ref => replace_link_ref_in_bytecode (start ref * 2) (slot_length ref * 2))
        (all_refs link_refs) in
  let processed_bytecode := pipe bytecode link_fns in
  Ok (add_0x_prefix processed_bytecode).

(** [normalize_offsets(data, bytecode)] *)
Definition normalize_offsets (data : dict (list RawLinkSlot)) (bytecode : list ascii)
  : list Z :=
  flat_map (fun link_ref => map start link_ref) (values data).

(** [normalize_link_ref(link_ref, bytecode)]; [list(link_ref.keys())[0]]
    raises [IndexError] on an empty dict. *)
Definition normalize_link_ref (link_ref : dict (list RawLinkSlot)) (bytecode : list ascii)
  : result LinkReference :=
  match keys link_ref with
  | [] => Raise IndexError
  | name :: _ =>
      Ok {| name := name;
            length_ := 20;
            offsets := normalize_offsets link_ref bytecode |}
  end.

(** [process_link_references(link_refs, bytecode)] *)
Definition process_link_references (link_refs : LinkRefs) (bytecode : list ascii)
  : result (list LinkReference) :=
  traverse (fun link_ref => normalize_link_ref link_ref bytecode) (values link_refs).

(** A value of the dict that [normalize_bytecode_object] builds. *)
Inductive BytecodeField : Type :=
| BytecodeHex (hex : list ascii)
| LinkReferenceList (refs : list LinkReference).

(** The compiler's [evm.bytecode]: [{"object": .., "linkReferences": ..}]. *)
Record BytecodeObject : Type := mkBytecodeObject {
  object : list ascii;
  linkReferences : LinkRefs
}.

(** Truth value of a dict: [if d:] holds when [d] has an entry. *)
Definition truthy {V} (d : dict V) : bool :=
  match d with [] => false | _ :: _ => true end.

(** [normalize_bytecode_object(obj)]: the pairs are yielded in this order,
    so an exception of [process_link_references] comes first. *)
Definition normalize_bytecode_object (obj : BytecodeObject)
  : result (dict BytecodeField) :=
  if truthy (linkReferences obj) then
    let* refs := process_link_references (linkReferences obj) (object obj) in
    let* hex := process_bytecode (linkReferences obj) (object obj) in
    Ok (to_dict [("link_references"%string, LinkReferenceList refs);
                 ("bytecode"%string, BytecodeHex hex)])
  else
    Ok (to_dict [("bytecode"%string, BytecodeHex (add_0x_prefix (object obj)))]).

(** A contract of the compiler output: [{"abi": .., "evm": {"bytecode": ..}}].
    The ABI is JSON that this code passes on untouched; it is kept as text. *)
Record ContractTypeData : Type := mkContractTypeData {
  abi : string;
  evm_bytecode : BytecodeObject
}.

(** A value of the dict that [normalize_contract_type] builds. *)
Inductive ContractField : Type :=
| Abi (a : string)
| DeploymentBytecode (b : dict BytecodeField)
| Natspec.

(** [normalize_contract_type(contract_type_data)] *)
Definition normalize_contract_type (contract_type_data : ContractTypeData)
  : result (dict ContractField) :=
  let* b := normalize_bytecode_object (evm_bytecode contract_type_data) in
  Ok (to_dict [("abi"%string, Abi (abi contract_type_data));
               ("deployment_bytecode"%string, DeploymentBytecode b);
               ("natspec"%string, Natspec)]).

(** The compiler output: source path, then contract name. *)
Abbreviation CompilerOutput := (dict (dict ContractTypeData)).

(** The list comprehension at the head of [normalize_compiler_output]. *)
Definition paths_and_names_of (compiler_output : CompilerOutput)
  : result (list (string * string)) :=
  let* per_path :=
    traverse (fun path =>
                let* contracts := getitem compiler_output path in
                Ok (map (fun contract_name => (path, contract_name)) (keys contracts)))
             (keys compiler_output) in
  Ok (concat per_path).

(** [len(set(names))] *)
Definition len_set (names : list string) : nat :=
  size (list_to_set names : gset string).

(** [normalize_compiler_output(compiler_output)]. Unzipping an empty
    [paths_and_names] yields nothing, so unpacking it into [paths, names]
    raises [ValueError]. *)
Definition normalize_compiler_output (compiler_output : CompilerOutput)
  : result (dict (dict ContractField)) :=
  let* paths_and_names := paths_and_names_of compiler_output in
  match paths_and_names with
  | [] => Raise ValueError
  | _ :: _ =>
      let names := map snd paths_and_names in
      if negb (Nat.eqb (length names) (len_set names)) then
        Raise ManifestBuildingError
      else
        let* entries :=
          traverse (fun pn : string * string =>
                      let* contracts := getitem compiler_output pn.1 in
                      let* data := getitem contracts pn.2 in
                      let* normalized := normalize_contract_type data in
                      Ok (pn.2, normalized))
                   paths_and_names in
        Ok (to_dict entries)
  end.

(** ** ethpm/utils/deployments.py *)

Module Deployments.

(** Modelled from the spec: the kind of a link dependency, the [type] key
    of the manifest, which [ethpm/utils/deployments.py] (not among the
    sources) reads. *)
Inductive Kind : Type :=
| Reference
| Literal.

(** Modelled from the spec: an entry of a deployment's [link_dependencies],
    [{"offsets": [..], "type": .., "value": ..}]; [ethpm/utils/deployments.py],
    which reads it, is not among the sources. *)
Record LinkDependency (V : Type) : Type := mkLinkDependency {
  offsets : list Z;
  type_ : Kind;
  value : V
}.
Arguments mkLinkDependency {V} _ _ _.
Arguments offsets {V} _.
Arguments type_ {V} _.
Arguments value {V} _.

(** Modelled from the spec: a normalized link dependency,
    [(offset, type, value)], as [ethpm/utils/deployments.py] (not among the
    sources) produces and checks it. *)
Abbreviation NormalizedLinkDependency V := (Z * Kind * V)%type.

(** Modelled from the spec: [normalize_link_dependencies] of
    [ethpm/utils/deployments.py], which the tests import, is not among the
    sources. The spec has it visit the input records in order and emit one
    triple per offset of the record, in the order of its [offsets]. *)
Fixpoint normalize_link_dependencies {V} (data : list (LinkDependency V))
  : list (NormalizedLinkDependency V) :=
  let fix emit (os : list Z) (k : Kind) (v : V) (rest : list (NormalizedLinkDependency V)) :=
    match os with
    | [] => rest
    | o :: os' => (o, k, v) :: emit os' k v rest
    end in
  match data with
  | [] => []
  | d :: data' =>
      emit (offsets d) (type_ d) (value d) (normalize_link_dependencies data')
  end.

(** Modelled from the spec: [validate_link_dependencies] of
    [ethpm/utils/deployments.py] is not among the sources. The spec has it
    require, for every triple, that [bytecode[offset : offset+len(value)]]
    equals [value], failing at the first one that does not; the tests
    expect [ValidationError] and [None] on success. *)
Fixpoint validate_link_dependencies
    (link_deps : list (NormalizedLinkDependency (list ascii)))
    (bytecode : list ascii) : result unit :=
  match link_deps with
  | [] => Ok tt
  | (offset, _, value) :: link_deps' =>
      let actual := slice bytecode offset (offset + Z.of_nat (length value)) in
      if str_ne actual value then Raise ValidationError
      else validate_link_dependencies link_deps' bytecode
  end.

(** Modelled from the spec: a deployment's [runtime_bytecode], of which
    [ethpm/utils/deployments.py] (not among the sources) reads the
    [link_dependencies]. *)
Record RuntimeBytecode : Type := mkRuntimeBytecode {
  link_dependencies : list (LinkDependency string)
}.

(** Modelled from the spec: a deployment record with the keys of the test
    data, [ethpm/utils/deployments.py] being absent from the sources; its
    name is its key in the deployments mapping. *)
Record Deployment : Type := mkDeployment {
  contract_type : string;
  address : string;
  transaction : string;
  block : string;
  runtime_bytecode : option RuntimeBytecode
}.

(** Modelled from the spec: [runtime_bytecode.link_dependencies] as
    [get_linked_deployments] (not among the sources) looks it up, empty when
    the deployment has no [runtime_bytecode]. *)
Definition link_dependencies_of (data : Deployment) : list (LinkDependency string) :=
  match runtime_bytecode data with
  | Some rb => link_dependencies rb
  | None => []
  end.

(** Modelled from the spec: the filter of [get_linked_deployments] (not
    among the sources), which keeps a deployment whose [link_dependencies]
    is non-empty. *)
Definition has_link_dependencies (data : Deployment) : bool :=
  match link_dependencies_of data with [] => false | _ :: _ => true end.

(** Modelled from the spec: the self-reference test of
    [get_linked_deployments] (not among the sources), a dependency of kind
    [Reference] whose value is [deployment], the name of the deployment that
    carries it. *)
Definition is_self_reference (deployment : string) (link_dep : LinkDependency string)
  : bool :=
  match type_ link_dep with
  | Reference => bool_decide (value link_dep = deployment)
  | Literal => false
  end.

(** Modelled from the spec: [get_linked_deployments] of
    [ethpm/utils/deployments.py] is not among the sources. The spec has it
    keep the deployments whose [link_dependencies] is non-empty, fail for
    the whole call when one of them has a [Reference] dependency on its own
    name, and return the kept records unchanged otherwise; the tests
    expect [BytecodeLinkingError]. *)
Definition get_linked_deployments (deployments : dict Deployment)
  : result (dict Deployment) :=
  let linked_deployments :=
    List.filter (fun kv : string * Deployment => has_link_dependencies kv.2)
                deployments in
  if existsb (fun kv : string * Deployment =>
                existsb (is_self_reference kv.1) (link_dependencies_of kv.2))
             linked_deployments
  then Raise BytecodeLinkingError
  else Ok linked_deployments.

End Deployments.

(** ** The link reference records as the specification words them *)

(** Every symbol name of the map, over all source paths. *)
Definition symbol_names (link_refs : LinkRefs) : list string :=
  flat_map keys (values link_refs).

(** The byte-level start of every occurrence of [symbol] in the map. *)
Definition symbol_occurrences (link_refs : LinkRefs) (symbol : string) : list Z :=
  flat_map (fun by_name : dict (list RawLinkSlot) =>
              flat_map (fun kv : string * list RawLinkSlot =>
                          if decide (kv.1 = symbol) then map start kv.2 else [])
                       by_name)
           (values link_refs).

(** The specification's reading of [link_references]: one record per distinct
    symbol name, of length 20, whose offsets are the starts of the
    occurrences of that name, strictly ascending. *)
Definition one_record_per_symbol (link_refs : LinkRefs) (refs : list LinkReference)
  : Prop :=
  NoDup (map name refs) /\
  (forall symbol, In symbol (map name refs) <-> In symbol (symbol_names link_refs)) /\
  Forall (fun r =>
            length_ r = 20 /\
            StronglySorted Z.lt (offsets r) /\
            (forall o, In o (offsets r) <-> In o (symbol_occurrences link_refs (name r))))
         refs.

(** What the code builds for one symbol listed under a source path: its
    starts in the order the compiler lists them. *)
Definition link_reference_of (kv : string * list RawLinkSlot) : LinkReference :=
  {| name := kv.1; length_ := 20; offsets := map start kv.2 |}.

(** ** More of ethpm/tools/builder.py *)

(** [get_names_and_paths(compiler_output)]: a dict comprehension, so a
    contract name that a later path repeats keeps its place and takes the
    later path. *)
Definition get_names_and_paths (compiler_output : CompilerOutput)
  : result (dict string) :=
  let* per_path :=
    traverse (fun path =>
                let* contracts := getitem compiler_output path in
                Ok (map (fun contract_name => (contract_name, path)) (keys contracts)))
             (keys compiler_output) in
  Ok (to_dict (concat per_path)).

(** The marker convention as the specification words it: the first two and
    the last two characters of the slot are the marker. *)
Definition framed_by_marker (slot : list ascii) : Prop :=
  slice_to slot 2 = marker /\ slice_from slot (-2) = marker.

(** The slot of the hex string that a byte range of the link references
    declares. *)
Definition slot_of (ref : RawLinkSlot) (bytecode : list ascii) : list ascii :=
  slice bytecode (start ref * 2) (start ref * 2 + slot_length ref * 2).

(** Position [i] of the hex string lies in the window of [ref], whose start
    and length count bytes. *)
Definition in_window (i : nat) (ref : RawLinkSlot) : Prop :=
  start ref * 2 <= Z.of_nat i < start ref * 2 + slot_length ref * 2.

(** A value of a contract type entry of the manifest: a field that
    [normalize_contract_type] built, or the contract name that
    [_contract_type] adds under [contract_type] for an alias. *)
Inductive ManifestContractField : Type :=
| Normalized (field : ContractField)
| ContractTypeName (contract_name : string).

(** Truth value of an optional [str]: [None] and the empty string are false. *)
Definition truthy_str (o : option string) : bool :=
  match o with
  | None => false
  | Some EmptyString => false
  | Some (String _ _) => true
  end.

Section ContractType.

(** The manifest is a JSON document that this code hands to [assoc_in] of
    [toolz]; both are taken as given. *)
Variable Manifest : Type.
Variable assoc_in : Manifest -> list string -> dict ManifestContractField -> Manifest.

(** [_contract_type(name, compiler_output, alias, selected_fields, manifest)].
    Only the lookup of [name] is inside the [try]. *)
Definition _contract_type (name : string) (compiler_output : CompilerOutput)
    (alias : option string) (selected_fields : list string) (manifest : Manifest)
  : result Manifest :=
  let* contracts_by_name := normalize_compiler_output compiler_output in
  let* all_type_data :=
    match getitem contracts_by_name name with
    | Ok data => Ok data
    | Raise KeyError => Raise ManifestBuildingError
    | Raise e => Raise e
    end in
  let contract_type_data :=
    match selected_fields with
    | _ :: _ =>
        List.filter (fun kv : string * ContractField =>
                       bool_decide (kv.1 ∈ selected_fields))
                    all_type_data
    | [] => all_type_data
    end in
  let entry := map (fun kv : string * ContractField => (kv.1, Normalized kv.2))
                   contract_type_data in
  if truthy_str alias then
    Ok (assoc_in manifest ["contract_types"%string; default EmptyString alias]
                 (setitem entry "contract_type" (ContractTypeName name)))
  else Ok (assoc_in manifest ["contract_types"%string; name] entry).

(** [contract_type(name, compiler_output, alias, abi, compiler, contract_type,
    deployment_bytecode, natspec, runtime_bytecode)], applied to a manifest. *)
Definition contract_type (name : string) (compiler_output : CompilerOutput)
    (alias : option string)
    (abi compiler contract_type deployment_bytecode natspec runtime_bytecode : bool)
  : Manifest -> result Manifest :=
  let contract_type_fields : dict bool :=
    [("contract_type"%string, contract_type);
     ("deployment_bytecode"%string, deployment_bytecode);
     ("runtime_bytecode"%string, runtime_bytecode);
     ("abi"%string, abi);
     ("natspec"%string, natspec);
     ("compiler"%string, compiler)] in
  let selected_fields :=
    map fst (List.filter (fun kv : string * bool => kv.2) contract_type_fields) in
  _contract_type name compiler_output alias selected_fields.

End ContractType.

(** ** ethpm/utils/ipfs.py *)

Module Ipfs.

(** The parts of [urllib.parse.urlparse]'s result that this module reads. *)
Record ParseResult : Type := mkParseResult {
  scheme : list ascii;
  netloc : list ascii;
  path : list ascii
}.

(** [s.lstrip("/")] *)
Fixpoint lstrip_slash (s : list ascii) : list ascii :=
  match s with
  | [] => []
  | c :: s' => if decide (c = "/"%char) then lstrip_slash s' else s
  end.

(** [s.rstrip("/")] *)
Fixpoint rstrip_slash (s : list ascii) : list ascii :=
  match s with
  | [] => []
  | c :: s' =>
      match rstrip_slash s' with
      | [] => if decide (c = "/"%char) then [] else [c]
      | r => c :: r
      end
  end.

(** [s.strip("/")] *)
Definition strip_slash (s : list ascii) : list ascii :=
  rstrip_slash (lstrip_slash s).

(** Truth value of a [str]. *)
Definition nonempty (s : list ascii) : bool :=
  match s with [] => false | _ :: _ => true end.

Section WithUrlparse.

(** [urllib.parse.urlparse], of the Python standard library, is taken as
    given. *)
Variable urlparse : list ascii -> ParseResult.

(** [extract_ipfs_path_from_uri(value)] *)
Definition extract_ipfs_path_from_uri (value : list ascii) : list ascii :=
  let parse_result := urlparse value in
  if nonempty (netloc parse_result) then
    if nonempty (path parse_result) then
      netloc parse_result ++ rstrip_slash (path parse_result)
    else netloc parse_result
  else strip_slash (path parse_result).

(** [is_ipfs_uri(value)] *)
Definition is_ipfs_uri (value : list ascii) : bool :=
  let parse_result := urlparse value in
  if str_ne (scheme parse_result) (str "ipfs") then false
  else if negb (nonempty (netloc parse_result)) && negb (nonempty (path parse_result))
       then false
       else true.

End WithUrlparse.

End Ipfs.

(** * Properties *)

(** ** Slices *)

Section Slices.

Context {A : Type}.
Implicit Types (l : list A) (n : nat) (i : Z).

Lemma clamp_le n i : (clamp n i <= n)%nat.
Proof. unfold clamp. destruct (Z.ltb_spec i 0); lia. Qed.

Lemma clamp_nonneg n i : 0 <= i -> clamp n i = Nat.min (Z.to_nat i) n.
Proof. intros Hi. unfold clamp. destruct (Z.ltb_spec i 0); lia. Qed.

Lemma clamp_inside n i : 0 <= i <= Z.of_nat n -> clamp n i = Z.to_nat i.
Proof. intros Hi. rewrite clamp_nonneg by lia. lia. Qed.

Lemma slice_nil lo hi : slice (@nil A) lo hi = [].
Proof. unfold slice. by rewrite drop_nil, take_nil. Qed.

Lemma length_slice l lo hi :
  length (slice l lo hi) = (clamp (length l) hi - clamp (length l) lo)%nat.
Proof.
  unfold slice. rewrite length_take, length_drop.
  pose proof (clamp_le (length l) hi). lia.
Qed.

(** A non-empty slice starts inside the sequence. *)
Lemma slice_nonempty_start l lo hi :
  0 <= lo -> slice l lo hi <> [] -> lo < Z.of_nat (length l).
Proof.
  intros Hlo Hne.
  destruct (Z.lt_ge_cases lo (Z.of_nat (length l))) as [|Hge]; [done|].
  exfalso. apply Hne. apply nil_length_inv.
  rewrite length_slice, (clamp_nonneg _ lo) by done.
  pose proof (clamp_le (length l) hi). lia.
Qed.

End Slices.

(** ** Link reference slots of the bytecode *)

Section LinkRefSlots.

Implicit Types (offset length : Z) (bytecode : list ascii).

Lemma str_ne_true (a b : list ascii) : str_ne a b = true <-> a <> b.
Proof. unfold str_ne. case_decide; split; congruence. Qed.

(** [validate_link_ref] raises exactly when neither end of the slot holds
    the marker. *)
Lemma validate_link_ref_raises offset length bytecode :
  validate_link_ref offset length bytecode = Raise ValidationError <->
  slice_to (slice bytecode offset (offset + length)) 2 <> marker /\
  slice_from (slice bytecode offset (offset + length)) (-2) <> marker.
Proof.
  unfold validate_link_ref. rewrite <- !str_ne_true.
  destruct (str_ne (slice_to _ 2) marker), (str_ne (slice_from _ (-2)) marker);
    simpl; intuition congruence.
Qed.

(** It never alters the bytecode, and raises nothing but [ValidationError]. *)
Lemma validate_link_ref_cases offset length bytecode :
  validate_link_ref offset length bytecode = Ok bytecode \/
  validate_link_ref offset length bytecode = Raise ValidationError.
Proof.
  unfold validate_link_ref.
  destruct (_ && _); [by right | by left].
Qed.

(** An accepted slot has characters. *)
Lemma validate_link_ref_slot_nonempty offset length bytecode r :
  validate_link_ref offset length bytecode = Ok r ->
  slice bytecode offset (offset + length) <> [].
Proof.
  unfold validate_link_ref. intros Hv Hnil. rewrite Hnil in Hv.
  discriminate Hv.
Qed.

Lemma validate_link_ref_start_inside offset length bytecode r :
  0 <= offset ->
  validate_link_ref offset length bytecode = Ok r ->
  offset < Z.of_nat (List.length bytecode).
Proof.
  intros Ho Hv. eapply slice_nonempty_start; [done|].
  eapply validate_link_ref_slot_nonempty, Hv.
Qed.

(** The three parts of a patched bytecode, for a slot that starts inside
    the bytecode. *)
Lemma replace_link_ref_parts offset length bytecode :
  0 <= offset <= Z.of_nat (List.length bytecode) -> 0 <= length ->
  replace_link_ref_in_bytecode offset length bytecode =
  take (Z.to_nat offset) bytecode
    ++ replicate (Z.to_nat length) "0"%char
    ++ drop (Nat.min (Z.to_nat offset + Z.to_nat length) (List.length bytecode))
            bytecode.
Proof.
  intros Ho Hl. unfold replace_link_ref_in_bytecode, slice_to, slice_from, repeat_char.
  rewrite clamp_inside by lia. rewrite clamp_nonneg by lia.
  do 3 f_equal. lia.
Qed.

Lemma length_replace_link_ref offset length bytecode :
  0 <= offset -> 0 <= length ->
  offset + length <= Z.of_nat (List.length bytecode) ->
  List.length (replace_link_ref_in_bytecode offset length bytecode)
  = List.length bytecode.
Proof.
  intros Ho Hl Hin. rewrite replace_link_ref_parts by lia.
  rewrite !length_app, length_take, length_replicate, length_drop. lia.
Qed.

(** A pipeline of validators passes the bytecode on unchanged, or raises
    [ValidationError] when one of its stages does. *)
Lemma pipe_validate_ok (refs : list RawLinkSlot) bytecode :
  Forall (fun ref => validate_link_ref (start ref * 2) (slot_length ref * 2) bytecode
                     = Ok bytecode) refs ->
  pipe_raising bytecode
    (map (fun ref => validate_link_ref (start ref * 2) (slot_length ref * 2)) refs)
  = Ok bytecode.
Proof.
  induction 1 as [|ref refs Hv _ IH]; simpl; [done|].
  rewrite Hv. simpl. exact IH.
Qed.

Lemma pipe_validate_raises (refs : list RawLinkSlot) bytecode ref :
  In ref refs ->
  validate_link_ref (start ref * 2) (slot_length ref * 2) bytecode
  = Raise ValidationError ->
  pipe_raising bytecode
    (map (fun ref => validate_link_ref (start ref * 2) (slot_length ref * 2)) refs)
  = Raise ValidationError.
Proof.
  intros Hin Hbad. induction refs as [|ref' refs IH]; [destruct Hin|].
  simpl.
  destruct (validate_link_ref_cases (start ref' * 2) (slot_length ref' * 2) bytecode)
    as [Hok|Hr]; rewrite ?Hok, ?Hr; simpl; [|done].
  destruct Hin as [->|Hin]; [congruence | by apply IH].
Qed.

End LinkRefSlots.

(** C1 (the code departs from the claim). The claim has [validate_link_ref]
    reject a slot that lacks the marker [__] at either end. The guard joins
    its two tests with [and], so a slot is rejected only when it lacks the
    marker at both ends: the 40-character slot below opens with [__] and
    closes with [6f], yet it is accepted, and [process_bytecode] goes on to
    zero it. *)
Theorem validate_link_ref_accepts_half_marked_slot :
  let bytecode := str "__SafeMathLib_________________________6f" in
  slice_to (slice bytecode 0 40) 2 = marker /\
  slice_from (slice bytecode 0 40) (-2) <> marker /\
  validate_link_ref (0 * 2) (20 * 2) bytecode = Ok bytecode /\
  process_bytecode
    [("SafeMathLib.sol"%string, [("SafeMathLib"%string, [mkRawLinkSlot 0 20])])]
    bytecode
  = Ok (str "0x0000000000000000000000000000000000000000").
Proof. cbv zeta. repeat split; try reflexivity. vm_compute. discriminate. Qed.

(** When every declared slot is accepted, the result is the bytecode with
    the slots replaced one after the other, behind the [0x] prefix. *)
Lemma process_bytecode_returns (link_refs : LinkRefs) (bytecode : list ascii) :
  Forall (fun ref => validate_link_ref (start ref * 2) (slot_length ref * 2) bytecode
                     = Ok bytecode) (all_refs link_refs) ->
  process_bytecode link_refs bytecode
  = Ok (add_0x_prefix
          (pipe bytecode
                (map (fun ref => replace_link_ref_in_bytecode
                                   (start ref * 2) (slot_length ref * 2))
                     (all_refs link_refs)))).
Proof.
  intros Hall. unfold process_bytecode. by rewrite (pipe_validate_ok _ _ Hall).
Qed.

(** When [validate_link_ref] raises for a slot that the link references
    declare, [process_bytecode] raises that [ValidationError] and returns no
    bytecode, wherever the slot stands among the declared ones. *)
Lemma process_bytecode_raises_on_invalid_slot
    (link_refs : LinkRefs) (bytecode : list ascii) (ref : RawLinkSlot) :
  In ref (all_refs link_refs) ->
  validate_link_ref (start ref * 2) (slot_length ref * 2) bytecode
  = Raise ValidationError ->
  process_bytecode link_refs bytecode = Raise ValidationError.
Proof.
  intros Hin Hbad. unfold process_bytecode.
  by rewrite (pipe_validate_raises _ _ _ Hin Hbad).
Qed.

(** C10. Replacing a slot of [l] hex characters at hex offset [o], with
    [o + l] within the bytecode, returns a string as long as the input; so
    does a pipeline of such replacements. *)
Theorem replace_link_ref_in_bytecode_preserves_length :
  (forall (o l : Z) (bytecode : list ascii),
      0 <= o -> 0 <= l -> o + l <= Z.of_nat (List.length bytecode) ->
      List.length (replace_link_ref_in_bytecode o l bytecode) = List.length bytecode) /\
  (forall (slots : list (Z * Z)) (bytecode : list ascii),
      Forall (fun ol => 0 <= ol.1 /\ 0 <= ol.2 /\
                        ol.1 + ol.2 <= Z.of_nat (List.length bytecode)) slots ->
      List.length
        (pipe bytecode (map (fun ol => replace_link_ref_in_bytecode ol.1 ol.2) slots))
      = List.length bytecode).
Proof.
  split; [apply length_replace_link_ref|].
  intros slots. unfold pipe.
  induction slots as [|[o l] slots IH]; intros bytecode Hall; [done|].
  apply Forall_cons in Hall as [(Ho & Hl & Hin) Hall]. simpl in Ho, Hl, Hin.
  pose proof (length_replace_link_ref o l bytecode Ho Hl Hin) as Hlen.
  simpl. rewrite IH; [done|]. by rewrite Hlen.
Qed.

Lemma replace_link_ref_in_bytecode_preserves_length_witness :
  List.length (replace_link_ref_in_bytecode 4 12 (str "6060__SafeMath__5050")) = 20%nat /\
  List.length
    (pipe (str "6060__SafeMath__5050")
          (map (fun ol => replace_link_ref_in_bytecode ol.1 ol.2) [(4, 12); (0, 2)]))
  = 20%nat.
Proof.
  destruct replace_link_ref_in_bytecode_preserves_length as [Hone Hmany].
  split.
  - apply (Hone 4 12 (str "6060__SafeMath__5050")); simpl; lia.
  - apply (Hmany [(4, 12); (0, 2)] (str "6060__SafeMath__5050")).
    repeat constructor; simpl; lia.
Defined.

(** ** Link reference records *)

(** C2, as the claim states it, fails: one symbol whose occurrences the
    compiler lists at 5 and then at 1 gets the offsets [5; 1]. The code
    copies the starts in the order given and never sorts them. *)
Lemma process_link_references_keeps_listed_order :
  let link_refs : LinkRefs :=
    [("A.sol"%string, [("Lib"%string, [mkRawLinkSlot 5 20; mkRawLinkSlot 1 20])])] in
  link_refs <> [] /\
  exists refs,
    process_link_references link_refs (str "6060") = Ok refs /\
    ~ one_record_per_symbol link_refs refs.
Proof.
  cbv zeta. split; [discriminate|].
  eexists. split; [reflexivity|].
  intros (_ & _ & Hall).
  apply Forall_cons in Hall as [(_ & Hsorted & _) _]. simpl in Hsorted.
  apply StronglySorted_inv in Hsorted as [_ Hlt].
  inversion Hlt as [|? ? H51 _]. simpl in H51. lia.
Qed.

Lemma normalize_link_ref_one_symbol symbol slots bytecode :
  normalize_link_ref [(symbol, slots)] bytecode = Ok (link_reference_of (symbol, slots)).
Proof.
  unfold normalize_link_ref, normalize_offsets, link_reference_of. simpl.
  by rewrite app_nil_r.
Qed.

(** C2, amended. When every source path of the map lists one symbol,
    [process_link_references] returns one record per source path, in the
    order of the map: its name is that symbol, its length is 20, and its
    offsets are the byte-level starts of the symbol's occurrences in the
    order the compiler lists them. *)
Theorem process_link_references_one_symbol_per_path
    (link_refs : LinkRefs) (bytecode : list ascii) :
  Forall (fun by_name : dict (list RawLinkSlot) => List.length by_name = 1%nat)
         (values link_refs) ->
  process_link_references link_refs bytecode
  = Ok (flat_map (map link_reference_of) (values link_refs)).
Proof.
  unfold process_link_references.
  induction link_refs as [|[path by_name] rest IH]; simpl; intros Hall; [done|].
  apply Forall_cons in Hall as [Hone Hall].
  destruct by_name as [|[symbol slots] [|]]; try discriminate Hone.
  rewrite normalize_link_ref_one_symbol, (IH Hall). done.
Qed.

Lemma process_link_references_one_symbol_per_path_witness :
  process_link_references
    [("A.sol"%string, [("LibA"%string, [mkRawLinkSlot 5 20; mkRawLinkSlot 1 20])]);
     ("B.sol"%string, [("LibB"%string, [mkRawLinkSlot 30 20])])]
    (str "6060")
  = Ok [mkLinkReference "LibA" 20 [5; 1]; mkLinkReference "LibB" 20 [30]].
Proof.
  apply (process_link_references_one_symbol_per_path
           [("A.sol"%string, [("LibA"%string, [mkRawLinkSlot 5 20; mkRawLinkSlot 1 20])]);
            ("B.sol"%string, [("LibB"%string, [mkRawLinkSlot 30 20])])]).
  repeat constructor.
Defined.

(** C7. With an empty [linkReferences] the normalized entry has the single
    key [bytecode]; its value is the compiler's [object], as it is when it
    has the [0x] prefix and with [0x] put in front when it has not; the
    entry has no [link_references] key. *)
Theorem normalize_bytecode_object_without_link_references (obj : BytecodeObject) :
  linkReferences obj = [] ->
  normalize_bytecode_object obj
  = Ok [("bytecode"%string, BytecodeHex (add_0x_prefix (object obj)))] /\
  (forall entry, normalize_bytecode_object obj = Ok entry ->
                 get entry "link_references" = None /\
                 keys entry = ["bytecode"%string]) /\
  add_0x_prefix (object obj)
  = (if is_0x_prefixed (object obj) then object obj else str "0x" ++ object obj).
Proof.
  intros Hempty. unfold normalize_bytecode_object. rewrite Hempty. simpl.
  split; [done|]. split; [|done].
  intros entry [= <-]. done.
Qed.

Lemma normalize_bytecode_object_without_link_references_witness :
  normalize_bytecode_object (mkBytecodeObject (str "6060") [])
  = Ok [("bytecode"%string, BytecodeHex (str "0x6060"))].
Proof.
  apply (normalize_bytecode_object_without_link_references
           (mkBytecodeObject (str "6060") [])).
  reflexivity.
Defined.

(** ** Contract names of a compiler output *)

Section ContractNames.

Lemma len_set_le (names : list string) : (len_set names <= List.length names)%nat.
Proof.
  unfold len_set. induction names as [|x names IH].
  - vm_compute. lia.
  - rewrite list_to_set_cons, size_union_alt, size_singleton. simpl.
    pose proof (subseteq_size (list_to_set names ∖ {[x]}) (list_to_set names : gset string)
                  (subseteq_difference_l _ _ _ (reflexivity _))).
    lia.
Qed.

(** [len(names) == len(set(names))] only when no name occurs twice. *)
Lemma len_set_NoDup (names : list string) :
  len_set names = List.length names -> NoDup names.
Proof.
  induction names as [|x names IH]; intros Hlen; [constructor|].
  pose proof (len_set_le names) as Hle.
  unfold len_set in *. rewrite list_to_set_cons in Hlen. simpl in Hlen.
  destruct (decide (x ∈ names)) as [Hin|Hnotin].
  - assert (Heq : {[x]} ∪ list_to_set names = (list_to_set names : gset string)).
    { apply subseteq_union_1_L, singleton_subseteq_l. by apply elem_of_list_to_set. }
    rewrite Heq in Hlen. lia.
  - rewrite size_union, size_singleton in Hlen
      by (apply disjoint_singleton_l; by rewrite elem_of_list_to_set).
    constructor; [done | apply IH; lia].
Qed.

Lemma map_collision_not_NoDup {A B} (f : A -> B) (l : list A) (a b : A) :
  In a l -> In b l -> a <> b -> f a = f b -> ~ NoDup (map f l).
Proof.
  intros Ha Hb Hab Hf. induction l as [|x l IH]; [destruct Ha|].
  simpl. intros Hnd. apply NoDup_cons in Hnd as [Hx Hnd].
  rewrite list_elem_of_In in Hx.
  destruct Ha as [->|Ha], Hb as [->|Hb].
  - done.
  - apply Hx. rewrite Hf. by apply in_map.
  - apply Hx. rewrite <- Hf. by apply in_map.
  - by apply IH.
Qed.

Lemma getitem_in_keys {V} (d : dict V) k v : getitem d k = Ok v -> In k (keys d).
Proof.
  induction d as [|[k' v'] d IH]; simpl; [discriminate|].
  case_decide; [by left | right; by apply IH].
Qed.

Lemma getitem_of_key {V} (d : dict V) k : In k (keys d) -> exists v, getitem d k = Ok v.
Proof.
  induction d as [|[k' v'] d IH]; simpl; [done|].
  intros Hin. case_decide; [by eexists|].
  destruct Hin as [?|Hin]; [done | by apply IH].
Qed.

(** A comprehension over items that all succeed. *)
Lemma traverse_ok {A B} (f : A -> result B) (xs : list A) :
  (forall x, In x xs -> exists y, f x = Ok y) ->
  exists ys, traverse f xs = Ok ys /\
             (forall x y, In x xs -> f x = Ok y -> In y ys).
Proof.
  induction xs as [|x xs IH]; intros Hall; simpl.
  - exists []. split; [done|]. intros ? ? [].
  - destruct (Hall x (or_introl eq_refl)) as [y Hy].
    destruct IH as (ys & Hys & Hin); [intros; apply Hall; by right|].
    exists (y :: ys). rewrite Hy, Hys. split; [done|].
    intros x' y' [<-|Hx'] Hfx'; [left; congruence | right; eauto].
Qed.

(** [paths_and_names] pairs every path with every contract name that
    [compiler_output[path]] holds. *)
Lemma paths_and_names_of_complete (compiler_output : CompilerOutput) :
  exists paths_and_names,
    paths_and_names_of compiler_output = Ok paths_and_names /\
    (forall path contracts contract_name,
        getitem compiler_output path = Ok contracts ->
        In contract_name (keys contracts) ->
        In (path, contract_name) paths_and_names).
Proof.
  unfold paths_and_names_of.
  edestruct (traverse_ok
               (fun path =>
                  let* contracts := getitem compiler_output path in
                  Ok (map (fun contract_name => (path, contract_name)) (keys contracts)))
               (keys compiler_output)) as (per_path & Hper & Hin).
  { intros path Hpath. destruct (getitem_of_key _ _ Hpath) as [c Hc].
    rewrite Hc. by eexists. }
  rewrite Hper. simpl. eexists. split; [done|].
  intros path contracts contract_name Hget Hname.
  apply in_concat. eexists. split.
  - apply (Hin path); [by eapply getitem_in_keys|]. by rewrite Hget.
  - by apply in_map.
Qed.

End ContractNames.

(** C8. When [compiler_output] holds a contract name under two different
    source paths, [normalize_compiler_output] raises
    [ManifestBuildingError]; that is so whatever the contracts are, those
    whose own normalization would raise included, since the names are
    compared before the first contract is normalized. *)
Theorem normalize_compiler_output_duplicate_names
    (compiler_output : CompilerOutput) (path1 path2 contract_name : string)
    (contracts1 contracts2 : dict ContractTypeData) :
  getitem compiler_output path1 = Ok contracts1 ->
  getitem compiler_output path2 = Ok contracts2 ->
  path1 <> path2 ->
  In contract_name (keys contracts1) ->
  In contract_name (keys contracts2) ->
  normalize_compiler_output compiler_output = Raise ManifestBuildingError.
Proof.
  intros Hget1 Hget2 Hne Hin1 Hin2.
  destruct (paths_and_names_of_complete compiler_output) as (pns & Hpns & Hall).
  pose proof (Hall _ _ _ Hget1 Hin1) as H1.
  pose proof (Hall _ _ _ Hget2 Hin2) as H2.
  unfold normalize_compiler_output. rewrite Hpns. simpl.
  destruct pns as [|pn pns]; [destruct H1|].
  destruct (Nat.eqb_spec (List.length (map snd (pn :: pns))) (len_set (map snd (pn :: pns))))
    as [Heq|_]; [|done].
  exfalso. symmetry in Heq. apply len_set_NoDup in Heq.
  eapply (map_collision_not_NoDup snd); [exact H1 | exact H2 | congruence | done | done].
Qed.

Lemma normalize_compiler_output_duplicate_names_witness :
  let unmarked :=
    mkContractTypeData "[]"
      (mkBytecodeObject (str "60606060")
         [("Lib.sol"%string, [("Lib"%string, [mkRawLinkSlot 1 2])])]) in
  let plain := mkContractTypeData "[]" (mkBytecodeObject (str "6060") []) in
  normalize_contract_type unmarked = Raise ValidationError /\
  normalize_compiler_output
    [("a/Owned.sol"%string, [("Owned"%string, plain); ("Token"%string, unmarked)]);
     ("b/Owned.sol"%string, [("Owned"%string, plain)])]
  = Raise ManifestBuildingError.
Proof.
  split; [reflexivity|].
  eapply (normalize_compiler_output_duplicate_names _
            "a/Owned.sol" "b/Owned.sol" "Owned");
    [reflexivity | reflexivity | discriminate | simpl; tauto | simpl; tauto].
Defined.

(** ** Link dependencies of deployments *)

Section LinkDependencies.

Import Deployments.

(** The flattening of the test suite:
    [[{"offsets": [1], "type": "reference", "value": "123"},
      {"offsets": [2, 3], "type": "literal", "value": "abc"}]]. *)
Example normalize_link_dependencies_test :
  normalize_link_dependencies
    [mkLinkDependency [1] Reference "123"%string;
     mkLinkDependency [2; 3] Literal "abc"%string]
  = [(1, Reference, "123"%string); (2, Literal, "abc"%string);
     (3, Literal, "abc"%string)].
Proof. reflexivity. Qed.

(** The checks of the test suite that pass, and those that do not. *)
Example validate_link_dependencies_test :
  validate_link_dependencies [(1, Literal, str "abc")] (str "xabc") = Ok tt /\
  validate_link_dependencies
    [(1, Literal, str "a"); (5, Literal, str "xx"); (15, Literal, str "1")]
    (str "0a000xx000000001") = Ok tt /\
  validate_link_dependencies [(0, Literal, str "abc")] (str "xabc")
  = Raise ValidationError /\
  validate_link_dependencies [(2, Literal, str "abc")] (str "xabc")
  = Raise ValidationError /\
  validate_link_dependencies [(8, Literal, str "abc")] (str "xabc")
  = Raise ValidationError /\
  validate_link_dependencies
    [(1, Literal, str "a"); (5, Literal, str "xxx"); (15, Literal, str "1")]
    (str "0a000xx000000001") = Raise ValidationError.
Proof. repeat split. Qed.

(** A window with a position past the end of the buffer is cut short by
    the slice, so it cannot equal the expected value. *)
Lemma overrun_slice_differs (bytecode value : list ascii) (offset i : Z) :
  offset <= i < offset + Z.of_nat (List.length value) ->
  Z.of_nat (List.length bytecode) <= i ->
  slice bytecode offset (offset + Z.of_nat (List.length value)) <> value.
Proof.
  intros Hwin Hpast Heq.
  apply (f_equal (@List.length ascii)) in Heq. rewrite length_slice in Heq.
  unfold clamp in Heq.
  destruct (Z.ltb_spec (offset + Z.of_nat (List.length value)) 0),
           (Z.ltb_spec offset 0); lia.
Qed.

Lemma validate_link_dependencies_cases link_deps bytecode :
  validate_link_dependencies link_deps bytecode = Ok tt \/
  validate_link_dependencies link_deps bytecode = Raise ValidationError.
Proof.
  induction link_deps as [|[[offset k] value] link_deps IH]; simpl; [by left|].
  destruct (str_ne _ value); [by right | exact IH].
Qed.

Lemma validate_link_dependencies_ok link_deps bytecode :
  validate_link_dependencies link_deps bytecode = Ok tt <->
  Forall (fun t : NormalizedLinkDependency (list ascii) =>
            slice bytecode t.1.1 (t.1.1 + Z.of_nat (List.length t.2)) = t.2)
         link_deps.
Proof.
  induction link_deps as [|[[offset k] value] link_deps IH]; simpl.
  - split; [constructor | done].
  - rewrite Forall_cons. simpl. rewrite <- IH.
    destruct (str_ne _ value) eqn:Hne.
    + apply str_ne_true in Hne. split; [discriminate | tauto].
    + assert (Heq : slice bytecode offset (offset + Z.of_nat (List.length value)) = value).
      { destruct (decide (slice bytecode offset (offset + Z.of_nat (List.length value)) = value))
          as [|Hd]; [done|]. apply str_ne_true in Hd. congruence. }
      tauto.
Qed.

End LinkDependencies.

(** C3. [validate_link_dependencies] returns normally exactly when, for every
    triple, the slice [bytecode[offset : offset+len(value)]] equals [value];
    otherwise it raises [ValidationError], and it does so in particular for a
    triple whose window has a position past the end of the buffer. The
    function takes the buffer and returns no buffer. *)
Theorem validate_link_dependencies_spec
    (link_deps : list (Deployments.NormalizedLinkDependency (list ascii)))
    (bytecode : list ascii) :
  (Deployments.validate_link_dependencies link_deps bytecode = Ok tt <->
   Forall (fun t : Deployments.NormalizedLinkDependency (list ascii) =>
             slice bytecode t.1.1 (t.1.1 + Z.of_nat (List.length t.2)) = t.2)
          link_deps) /\
  (Deployments.validate_link_dependencies link_deps bytecode <> Ok tt ->
   Deployments.validate_link_dependencies link_deps bytecode = Raise ValidationError) /\
  (forall offset kind value i,
      In (offset, kind, value) link_deps ->
      offset <= i < offset + Z.of_nat (List.length value) ->
      Z.of_nat (List.length bytecode) <= i ->
      Deployments.validate_link_dependencies link_deps bytecode = Raise ValidationError).
Proof.
  split; [apply validate_link_dependencies_ok|].
  assert (Hother : Deployments.validate_link_dependencies link_deps bytecode <> Ok tt ->
                   Deployments.validate_link_dependencies link_deps bytecode
                   = Raise ValidationError).
  { destruct (validate_link_dependencies_cases link_deps bytecode); [done | auto]. }
  split; [exact Hother|].
  intros offset kind value i Hin Hwin Hpast. apply Hother.
  rewrite validate_link_dependencies_ok, Forall_forall.
  intros Hall. apply list_elem_of_In in Hin. specialize (Hall _ Hin). simpl in Hall.
  by eapply overrun_slice_differs.
Qed.

Lemma validate_link_dependencies_spec_witness :
  Deployments.validate_link_dependencies
    [(1, Deployments.Literal, str "abc")] (str "xabc") = Ok tt /\
  Deployments.validate_link_dependencies
    [(0, Deployments.Literal, str "abc")] (str "xabc") = Raise ValidationError /\
  Deployments.validate_link_dependencies
    [(1, Deployments.Literal, str "a"); (2, Deployments.Reference, str "abc")]
    (str "xabc") = Raise ValidationError.
Proof.
  split; [|split].
  - apply (validate_link_dependencies_spec
             [(1, Deployments.Literal, str "abc")] (str "xabc")).
    repeat constructor.
  - apply (validate_link_dependencies_spec
             [(0, Deployments.Literal, str "abc")] (str "xabc")).
    discriminate.
  - destruct (validate_link_dependencies_spec
                [(1, Deployments.Literal, str "a"); (2, Deployments.Reference, str "abc")]
                (str "xabc")) as (_ & _ & Hover).
    apply (Hover 2 Deployments.Reference (str "abc") 4); simpl; [tauto | lia | lia].
Defined.

(** C4. [normalize_link_dependencies] returns, for the records in the order
    of the list, one triple [(offset, type, value)] per offset of the record
    in the order of its [offsets]; the triples of a record follow those of
    the records before it, and nothing is sorted or dropped. *)
Theorem normalize_link_dependencies_flattens
    {V : Type} (data : list (Deployments.LinkDependency V)) :
  Deployments.normalize_link_dependencies data
  = flat_map (fun d => map (fun offset => (offset, Deployments.type_ d, Deployments.value d))
                           (Deployments.offsets d))
             data /\
  map (fun t : Deployments.NormalizedLinkDependency V => t.1.1)
      (Deployments.normalize_link_dependencies data)
  = concat (map Deployments.offsets data) /\
  List.length (Deployments.normalize_link_dependencies data)
  = list_sum (map (fun d => List.length (Deployments.offsets d)) data).
Proof.
  assert (Hflat : Deployments.normalize_link_dependencies data
                  = flat_map (fun d => map (fun offset =>
                                              (offset, Deployments.type_ d, Deployments.value d))
                                           (Deployments.offsets d)) data).
  { induction data as [|[os k v] data IH]; simpl; [done|].
    rewrite IH. clear IH. induction os as [|o os IHos]; simpl; [done|].
    by rewrite IHos. }
  rewrite Hflat. clear Hflat. split; [done|].
  induction data as [|d data [IH1 IH2]]; simpl; [done|].
  rewrite map_app, length_app, IH1, IH2, map_map, length_map. simpl.
  split; [by rewrite map_id | done].
Qed.

(** C5. When a deployment of the mapping has a link dependency of kind
    [Reference] whose value is the deployment's own name,
    [get_linked_deployments] raises [BytecodeLinkingError] for the mapping,
    whatever its other deployments are, and returns no mapping. *)
Theorem get_linked_deployments_self_reference
    (deployments : dict Deployments.Deployment) (deployment : string)
    (data : Deployments.Deployment) (link_dep : Deployments.LinkDependency string) :
  In (deployment, data) deployments ->
  In link_dep (Deployments.link_dependencies_of data) ->
  Deployments.type_ link_dep = Deployments.Reference ->
  Deployments.value link_dep = deployment ->
  Deployments.get_linked_deployments deployments = Raise BytecodeLinkingError.
Proof.
  intros Hin Hdep Hkind Hvalue. unfold Deployments.get_linked_deployments.
  match goal with |- (if ?b then _ else _) = _ => assert (Hb : b = true) end.
  { apply existsb_exists. exists (deployment, data). split.
    - apply filter_In. split; [done|]. simpl.
      unfold Deployments.has_link_dependencies.
      destruct (Deployments.link_dependencies_of data); [destruct Hdep | done].
    - apply existsb_exists. exists link_dep. split; [done|]. simpl.
      unfold Deployments.is_self_reference. rewrite Hkind.
      by apply bool_decide_eq_true. }
  by rewrite Hb.
Qed.

Lemma get_linked_deployments_self_reference_witness :
  let safe_math_lib :=
    Deployments.mkDeployment "SafeMathLib" "0x8d2c" "0xacee" "0x420c" None in
  let wallet :=
    Deployments.mkDeployment "Wallet" "0x1111" "0x2222" "0x3333"
      (Some (Deployments.mkRuntimeBytecode
               [Deployments.mkLinkDependency [10] Deployments.Reference
                                             "SafeMathLib"%string])) in
  let escrow :=
    Deployments.mkDeployment "Escrow" "0x8c19" "0xc60e" "0x4d1a"
      (Some (Deployments.mkRuntimeBytecode
               [Deployments.mkLinkDependency [301; 495] Deployments.Reference
                                             "Escrow"%string])) in
  Deployments.get_linked_deployments
    [("SafeMathLib"%string, safe_math_lib); ("Wallet"%string, wallet)]
  = Ok [("Wallet"%string, wallet)] /\
  Deployments.get_linked_deployments
    [("SafeMathLib"%string, safe_math_lib); ("Wallet"%string, wallet);
     ("Escrow"%string, escrow)]
  = Raise BytecodeLinkingError.
Proof.
  cbv zeta. split; [reflexivity|].
  eapply (get_linked_deployments_self_reference _ "Escrow");
    [do 2 right; left; reflexivity | left; reflexivity | reflexivity | reflexivity].
Defined.

(** * Further properties of ethpm/tools/builder.py *)

(** ** Slots at the edges of the bytecode *)

Section SlotEdges.

Implicit Types (offset length : Z) (bytecode : list ascii).

Lemma slice_app_middle {A} (l1 l2 l3 : list A) :
  slice (l1 ++ l2 ++ l3) (Z.of_nat (List.length l1))
        (Z.of_nat (List.length l1) + Z.of_nat (List.length l2)) = l2.
Proof.
  unfold slice. rewrite !clamp_inside by (rewrite !length_app; lia).
  rewrite Nat2Z.id.
  replace (Z.to_nat (Z.of_nat (List.length l1) + Z.of_nat (List.length l2))
           - List.length l1)%nat with (List.length l2) by lia.
  rewrite drop_app_length. apply take_app_length.
Qed.

(** A slot that is short of two characters holds no marker. *)
Lemma short_slot_raises offset length bytecode :
  (List.length (slice bytecode offset (offset + length)) < 2)%nat ->
  validate_link_ref offset length bytecode = Raise ValidationError.
Proof.
  intros Hshort. apply validate_link_ref_raises.
  split; intros Heq; apply (f_equal (@List.length ascii)) in Heq.
  - unfold slice_to in Heq. rewrite length_take in Heq. simpl in Heq. lia.
  - unfold slice_from in Heq. rewrite length_drop in Heq. simpl in Heq. lia.
Qed.

(** The patched bytecode, position by position, for a slot that starts at
    or before the end of the bytecode. *)
Lemma replace_link_ref_lookup offset length bytecode :
  0 <= offset <= Z.of_nat (List.length bytecode) -> 0 <= length ->
  let patched := replace_link_ref_in_bytecode offset length bytecode in
  (List.length bytecode <= List.length patched)%nat /\
  (forall i : nat, offset <= Z.of_nat i < offset + length ->
                   patched !! i = Some "0"%char) /\
  (forall i : nat, ~ (offset <= Z.of_nat i < offset + length) ->
                   patched !! i = bytecode !! i).
Proof.
  intros Ho Hl patched. subst patched. rewrite replace_link_ref_parts by lia.
  set (a := Z.to_nat offset). set (b := Z.to_nat length).
  assert (Hta : List.length (take a bytecode) = a) by (rewrite length_take; lia).
  split; [|split].
  - rewrite !length_app, Hta, length_replicate, length_drop. lia.
  - intros i Hi. rewrite lookup_app_r by lia. rewrite Hta.
    rewrite lookup_app_l by (rewrite length_replicate; lia).
    apply lookup_replicate_2. lia.
  - intros i Hi. destruct (Nat.lt_ge_cases i a) as [Hlt|Hge].
    + rewrite lookup_app_l by lia. by apply lookup_take_lt.
    + assert (Hib : (a + b <= i)%nat) by lia.
      rewrite lookup_app_r by lia. rewrite Hta.
      rewrite lookup_app_r by (rewrite length_replicate; lia).
      rewrite length_replicate, lookup_drop.
      destruct (Nat.le_gt_cases (a + b) (List.length bytecode)) as [Hfit|Hover].
      * f_equal. lia.
      * rewrite !lookup_ge_None_2; [done|lia|lia].
Qed.

End SlotEdges.

(** X1. A slot of which fewer than two characters lie inside the bytecode
    (a length under 2, or a start less than two characters before the end)
    is rejected with [ValidationError]. *)
Theorem validate_link_ref_rejects_short_slot
    (offset length : Z) (bytecode : list ascii) :
  0 <= offset -> 0 <= length ->
  length < 2 \/ Z.of_nat (List.length bytecode) < offset + 2 ->
  validate_link_ref offset length bytecode = Raise ValidationError.
Proof.
  intros Ho Hl Hshort. apply short_slot_raises.
  rewrite length_slice, !clamp_nonneg by lia. lia.
Qed.

Lemma validate_link_ref_rejects_short_slot_witness :
  validate_link_ref 0 1 (str "__6060") = Raise ValidationError /\
  validate_link_ref 5 40 (str "6060__") = Raise ValidationError.
Proof.
  split.
  - apply (validate_link_ref_rejects_short_slot 0 1 (str "__6060")); simpl; lia.
  - apply (validate_link_ref_rejects_short_slot 5 40 (str "6060__")); simpl; lia.
Defined.

(** X2. The length of a patched bytecode, for a slot of [length] characters
    at a non-negative [offset]: when the slot starts inside the bytecode or
    at its end, it is the larger of the old length and [offset + length], so
    a slot that runs past the end lengthens the bytecode; when it starts
    past the end, the zeros are appended right after the last character and
    the bytecode grows by [length]. *)
Theorem replace_link_ref_in_bytecode_length
    (offset length : Z) (bytecode : list ascii) :
  0 <= offset -> 0 <= length ->
  Z.of_nat (List.length (replace_link_ref_in_bytecode offset length bytecode))
  = if offset <=? Z.of_nat (List.length bytecode)
    then Z.max (Z.of_nat (List.length bytecode)) (offset + length)
    else Z.of_nat (List.length bytecode) + length.
Proof.
  intros Ho Hl. unfold replace_link_ref_in_bytecode, slice_to, slice_from, repeat_char.
  rewrite !length_app, length_take, length_replicate, length_drop.
  rewrite !clamp_nonneg by lia.
  destruct (Z.leb_spec offset (Z.of_nat (List.length bytecode))); lia.
Qed.

Lemma replace_link_ref_in_bytecode_length_witness :
  replace_link_ref_in_bytecode 2 6 (str "60__") = str "60000000" /\
  replace_link_ref_in_bytecode 6 2 (str "60__") = str "60__00" /\
  Z.of_nat (List.length (replace_link_ref_in_bytecode 2 6 (str "60__"))) = 8 /\
  Z.of_nat (List.length (replace_link_ref_in_bytecode 6 2 (str "60__"))) = 6.
Proof.
  split; [reflexivity|]. split; [reflexivity|]. split.
  - apply (replace_link_ref_in_bytecode_length 2 6 (str "60__")); lia.
  - apply (replace_link_ref_in_bytecode_length 6 2 (str "60__")); lia.
Defined.

(** X3. Once a slot has been replaced it no longer passes
    [validate_link_ref]: the patched bytecode holds zeros there, so
    validating the same offset and length again raises [ValidationError]. *)
Theorem validate_link_ref_rejects_replaced_slot
    (offset length : Z) (bytecode : list ascii) :
  0 <= offset <= Z.of_nat (List.length bytecode) -> 0 <= length ->
  validate_link_ref offset length
    (replace_link_ref_in_bytecode offset length bytecode)
  = Raise ValidationError.
Proof.
  intros Ho Hl. rewrite replace_link_ref_parts by lia.
  apply validate_link_ref_raises.
  assert (Hslot : slice (take (Z.to_nat offset) bytecode
                           ++ replicate (Z.to_nat length) "0"%char
                           ++ drop (Nat.min (Z.to_nat offset + Z.to_nat length)
                                            (List.length bytecode)) bytecode)
                        offset (offset + length)
                  = replicate (Z.to_nat length) "0"%char).
  { pose proof (slice_app_middle (take (Z.to_nat offset) bytecode)
                  (replicate (Z.to_nat length) "0"%char)
                  (drop (Nat.min (Z.to_nat offset + Z.to_nat length)
                                 (List.length bytecode)) bytecode)) as Hmid.
    rewrite length_take, length_replicate in Hmid.
    replace (Z.of_nat (Nat.min (Z.to_nat offset) (List.length bytecode)))
      with offset in Hmid by lia.
    replace (Z.of_nat (Z.to_nat length)) with length in Hmid by lia.
    exact Hmid. }
  rewrite Hslot. clear Hslot.
  unfold slice_to, slice_from. rewrite take_replicate, drop_replicate.
  split; intros Heq.
  - destruct (Nat.min _ _) as [|[|n]]; discriminate Heq.
  - destruct (_ - _)%nat as [|[|n]]; discriminate Heq.
Qed.

Lemma validate_link_ref_rejects_replaced_slot_witness :
  validate_link_ref 4 12 (str "6060__SafeMath__5050") = Ok (str "6060__SafeMath__5050") /\
  validate_link_ref 4 12
    (replace_link_ref_in_bytecode 4 12 (str "6060__SafeMath__5050"))
  = Raise ValidationError.
Proof.
  split; [reflexivity|].
  apply (validate_link_ref_rejects_replaced_slot 4 12 (str "6060__SafeMath__5050"));
    simpl; lia.
Defined.

(** ** The whole of [process_bytecode] *)

Section ProcessBytecode.

Implicit Types (link_refs : LinkRefs) (bytecode : list ascii) (refs : list RawLinkSlot).

Lemma in_window_dec i ref : {in_window i ref} + {~ in_window i ref}.
Proof.
  unfold in_window.
  destruct (Z_le_dec (start ref * 2) (Z.of_nat i));
    destruct (Z_lt_dec (Z.of_nat i) (start ref * 2 + slot_length ref * 2));
    (left; lia) || (right; lia).
Qed.

Lemma pipe_validate_inv refs bytecode r :
  pipe_raising bytecode
    (map (fun ref => validate_link_ref (start ref * 2) (slot_length ref * 2)) refs)
  = Ok r ->
  r = bytecode /\
  Forall (fun ref => validate_link_ref (start ref * 2) (slot_length ref * 2) bytecode
                     = Ok bytecode) refs.
Proof.
  induction refs as [|ref refs IH]; simpl.
  - intros [= <-]. by split.
  - destruct (validate_link_ref_cases (start ref * 2) (slot_length ref * 2) bytecode)
      as [Hok|Hr]; rewrite ?Hok, ?Hr; simpl; [|discriminate].
    intros Hrest. destruct (IH Hrest) as [-> Hall]. split; [done|].
    by constructor.
Qed.

Lemma pipe_validate_exn refs bytecode e :
  pipe_raising bytecode
    (map (fun ref => validate_link_ref (start ref * 2) (slot_length ref * 2)) refs)
  = Raise e ->
  e = ValidationError.
Proof.
  induction refs as [|ref refs IH]; simpl; [discriminate|].
  destruct (validate_link_ref_cases (start ref * 2) (slot_length ref * 2) bytecode)
    as [Hok|Hr]; rewrite ?Hok, ?Hr; simpl; [exact IH | congruence].
Qed.

Lemma add_0x_prefix_prefixed (value : list ascii) :
  is_0x_prefixed (add_0x_prefix value) = true.
Proof.
  unfold add_0x_prefix. destruct (is_0x_prefixed value) eqn:Hp; [done|]. reflexivity.
Qed.

Lemma add_0x_prefix_idempotent (value : list ascii) :
  add_0x_prefix (add_0x_prefix value) = add_0x_prefix value.
Proof.
  unfold add_0x_prefix at 1. by rewrite add_0x_prefix_prefixed.
Qed.

(** A pipeline of replacements whose slots start at or before the end of
    the bytecode they meet. *)
Lemma pipe_replace_lookup refs : forall bytecode,
  Forall (fun ref => 0 <= start ref * 2 <= Z.of_nat (List.length bytecode) /\
                     0 <= slot_length ref) refs ->
  let patched :=
    pipe bytecode
      (map (fun ref => replace_link_ref_in_bytecode (start ref * 2) (slot_length ref * 2))
           refs) in
  (List.length bytecode <= List.length patched)%nat /\
  (forall i : nat, Exists (in_window i) refs -> patched !! i = Some "0"%char) /\
  (forall i : nat, ~ Exists (in_window i) refs -> patched !! i = bytecode !! i).
Proof.
  unfold pipe.
  induction refs as [|ref refs IH]; intros bytecode Hall; simpl.
  - split; [done|]. split; [|done]. intros i Hex. by apply Exists_nil in Hex.
  - apply Forall_cons in Hall as [[Hstart Hlen] Hall].
    destruct (replace_link_ref_lookup (start ref * 2) (slot_length ref * 2) bytecode)
      as (Hgrow & Hzero & Hsame); [lia | lia |].
    destruct (IH (replace_link_ref_in_bytecode (start ref * 2) (slot_length ref * 2)
                                               bytecode)) as (Hgrow' & Hzero' & Hsame').
    { eapply Forall_impl; [exact Hall|]. simpl. intros r [Hr1 Hr2]. lia. }
    split; [lia|]. split.
    + intros i Hex.
      destruct (List.Exists_dec (in_window i) refs (in_window_dec i)) as [Hin|Hout].
      * by apply Hzero'.
      * rewrite Hsame' by done. apply Hzero.
        apply Exists_cons in Hex as [Hhere|Hthere]; [exact Hhere | done].
    + intros i Hnone. rewrite Hsame', Hsame; [done | |].
      * intros Hw. apply Hnone. by left.
      * intros Hex. apply Hnone. by right.
Qed.




End ProcessBytecode.



(** C9 (the code departs from the claim). The claim has [process_bytecode]
    raise, and patch nothing, as soon as one declared slot fails the marker
    convention. The validators do all run before the first replacement, but
    each of them is [validate_link_ref], which lets a slot through when one
    of its ends holds the marker: of the two slots below the first is framed
    by the marker, the second opens with [__] and closes with [60], and
    [process_bytecode] returns the bytecode with both of them zeroed. *)
Theorem process_bytecode_patches_half_marked_slot :
  let link_refs : LinkRefs :=
    [("A.sol"%string, [("A"%string, [mkRawLinkSlot 1 3])]);
     ("B.sol"%string, [("B"%string, [mkRawLinkSlot 5 3])])] in
  let bytecode := str "60__AA__60__BB607070" in
  all_refs link_refs = [mkRawLinkSlot 1 3; mkRawLinkSlot 5 3] /\
  framed_by_marker (slot_of (mkRawLinkSlot 1 3) bytecode) /\
  ~ framed_by_marker (slot_of (mkRawLinkSlot 5 3) bytecode) /\
  process_bytecode link_refs bytecode = Ok (str "0x60000000600000007070").
Proof.
  cbv zeta. split; [reflexivity|]. split; [by split|]. split; [|reflexivity].
  intros [_ Hend]. vm_compute in Hend. discriminate Hend.
Qed.

(** X4. [process_bytecode] returns exactly when [validate_link_ref] accepts
    every declared slot on the bytecode as passed in, and then returns the
    bytecode with the slots replaced one after the other, behind the [0x]
    prefix; the only exception it raises is [ValidationError]. *)
Theorem process_bytecode_returns_iff
    (link_refs : LinkRefs) (bytecode processed : list ascii) :
  (process_bytecode link_refs bytecode = Ok processed <->
   Forall (fun ref => validate_link_ref (start ref * 2) (slot_length ref * 2) bytecode
                      = Ok bytecode) (all_refs link_refs) /\
   processed
   = add_0x_prefix
       (pipe bytecode
             (map (fun ref => replace_link_ref_in_bytecode
                                (start ref * 2) (slot_length ref * 2))
                  (all_refs link_refs)))) /\
  (forall e, process_bytecode link_refs bytecode = Raise e -> e = ValidationError).
Proof.
  split; [split|].
  - unfold process_bytecode. intros Hrun.
    destruct (pipe_raising bytecode _) as [r|e] eqn:Hpipe; [|discriminate Hrun].
    apply pipe_validate_inv in Hpipe as [_ Hall]. simpl in Hrun.
    split; [done | congruence].
  - intros [Hall ->]. by apply process_bytecode_returns.
  - intros e. unfold process_bytecode.
    destruct (pipe_raising bytecode _) as [r|e'] eqn:Hpipe; simpl; [discriminate|].
    intros [= <-]. by eapply pipe_validate_exn.
Qed.

Lemma process_bytecode_returns_iff_witness :
  process_bytecode
    [("A.sol"%string, [("A"%string, [mkRawLinkSlot 1 3])])]
    (str "60__AA__6060")
  = Ok (str "0x600000006060").
Proof.
  apply (process_bytecode_returns_iff
           [("A.sol"%string, [("A"%string, [mkRawLinkSlot 1 3])])]
           (str "60__AA__6060") (str "0x600000006060")).
  split; [repeat constructor | reflexivity].
Defined.

(** Whatever [process_bytecode] returns starts with [0x] (or [0X], when the
    compiler's object already did). *)
Lemma process_bytecode_is_0x_prefixed
    (link_refs : LinkRefs) (bytecode processed : list ascii) :
  process_bytecode link_refs bytecode = Ok processed ->
  is_0x_prefixed processed = true.
Proof.
  unfold process_bytecode.
  destruct (pipe_raising bytecode _); simpl; [|discriminate].
  intros [= <-]. apply add_0x_prefix_prefixed.
Qed.

(** X5. When [process_bytecode] returns, for declared slots with
    non-negative starts and lengths, the string behind the prefix holds the
    digit [0] at every position that lies in the window of some declared
    slot and, at every other position, the character the compiler's object
    holds there. *)
Theorem process_bytecode_zeroes_exactly_the_slots
    (link_refs : LinkRefs) (bytecode processed : list ascii) :
  Forall (fun ref => 0 <= start ref /\ 0 <= slot_length ref) (all_refs link_refs) ->
  process_bytecode link_refs bytecode = Ok processed ->
  exists body,
    processed = add_0x_prefix body /\
    (forall i : nat, Exists (in_window i) (all_refs link_refs) ->
                     body !! i = Some "0"%char) /\
    (forall i : nat, ~ Exists (in_window i) (all_refs link_refs) ->
                     body !! i = bytecode !! i).
Proof.
  intros Hnonneg Hrun. unfold process_bytecode in Hrun.
  destruct (pipe_raising bytecode _) as [r|e] eqn:Hpipe; [|discriminate Hrun].
  apply pipe_validate_inv in Hpipe as [_ Hvalid]. simpl in Hrun.
  injection Hrun as <-. eexists. split; [reflexivity|].
  apply pipe_replace_lookup.
  rewrite Forall_forall in Hnonneg, Hvalid |- *. intros ref Hin.
  destruct (Hnonneg ref Hin) as [Hs Hl].
  assert (Hs2 : 0 <= start ref * 2) by lia.
  pose proof (validate_link_ref_start_inside _ _ _ _ Hs2 (Hvalid ref Hin)). lia.
Qed.

Lemma process_bytecode_zeroes_exactly_the_slots_witness :
  exists body,
    str "0x600000600000" = add_0x_prefix body /\
    (forall i : nat,
        Exists (in_window i) [mkRawLinkSlot 1 2; mkRawLinkSlot 4 2] ->
        body !! i = Some "0"%char) /\
    (forall i : nat,
        ~ Exists (in_window i) [mkRawLinkSlot 1 2; mkRawLinkSlot 4 2] ->
        body !! i = str "60__A_60__B_" !! i).
Proof.
  apply (process_bytecode_zeroes_exactly_the_slots
           [("A.sol"%string, [("A"%string, [mkRawLinkSlot 1 2])]);
            ("B.sol"%string, [("B"%string, [mkRawLinkSlot 4 2])])]
           (str "60__A_60__B_") (str "0x600000600000")).
  - repeat constructor; simpl; lia.
  - reflexivity.
Defined.

(** ** Link reference records, in general *)

Section LinkReferenceRecords.

Implicit Types (link_refs : LinkRefs) (bytecode : list ascii).

Lemma all_refs_cons (path : string) (by_name : dict (list RawLinkSlot)) link_refs :
  all_refs ((path, by_name) :: link_refs)
  = concat (values by_name) ++ all_refs link_refs.
Proof. unfold all_refs. simpl. by rewrite concat_app. Qed.

Lemma normalize_offsets_starts (by_name : dict (list RawLinkSlot)) bytecode :
  normalize_offsets by_name bytecode = map start (concat (values by_name)).
Proof.
  unfold normalize_offsets. by rewrite flat_map_concat_map, concat_map.
Qed.

(** What [process_link_references] does, by cases on whether some source
    path lists no symbol. *)
Lemma process_link_references_cases link_refs bytecode :
  (In [] (values link_refs) /\
   process_link_references link_refs bytecode = Raise IndexError) \/
  (~ In [] (values link_refs) /\
   exists refs,
     process_link_references link_refs bytecode = Ok refs /\
     Forall2 (fun by_name r => head (keys by_name) = Some (name r) /\
                               length_ r = 20 /\
                               offsets r = map start (concat (values by_name)))
             (values link_refs) refs).
Proof.
  unfold process_link_references.
  induction link_refs as [|[path by_name] link_refs IH]; simpl.
  - right. split; [tauto|]. exists []. split; [done | constructor].
  - destruct by_name as [|[symbol slots] by_name].
    + left. split; [by left | done].
    + unfold normalize_link_ref at 1. simpl.
      destruct IH as [[Hin Hraise]|[Hnot (refs & Hrefs & Hall)]].
      * left. split; [by right|]. by rewrite Hraise.
      * right. split; [intros [Heq|Hin]; [discriminate Heq | done]|].
        rewrite Hrefs. simpl. eexists. split; [reflexivity|].
        constructor; [|done]. simpl. split; [done|]. split; [done|].
        apply (normalize_offsets_starts ((symbol, slots) :: by_name)).
Qed.

End LinkReferenceRecords.

(** X6. [process_link_references] raises [IndexError] exactly when some
    source path of the map lists no symbol, and raises nothing else; the
    exception escapes [normalize_bytecode_object], whatever the bytecode
    holds. *)
Theorem process_link_references_index_error
    (link_refs : LinkRefs) (bytecode : list ascii) :
  (process_link_references link_refs bytecode = Raise IndexError <->
   In [] (values link_refs)) /\
  (forall e, process_link_references link_refs bytecode = Raise e -> e = IndexError) /\
  (In [] (values link_refs) ->
   normalize_bytecode_object (mkBytecodeObject bytecode link_refs) = Raise IndexError).
Proof.
  destruct (process_link_references_cases link_refs bytecode)
    as [[Hin Hraise]|[Hnot (refs & Hrefs & _)]].
  - split; [by split|]. split; [congruence|]. intros _.
    unfold normalize_bytecode_object. simpl.
    destruct link_refs; [destruct Hin|]. simpl. by rewrite Hraise.
  - split; [split; [congruence | done]|]. split; [congruence | done].
Qed.

Lemma process_link_references_index_error_witness :
  process_link_references
    [("A.sol"%string, [("Lib"%string, [mkRawLinkSlot 1 20])]); ("B.sol"%string, [])]
    (str "60__") = Raise IndexError /\
  normalize_bytecode_object
    (mkBytecodeObject (str "60__")
       [("A.sol"%string, [("Lib"%string, [mkRawLinkSlot 1 20])]); ("B.sol"%string, [])])
  = Raise IndexError.
Proof.
  destruct (process_link_references_index_error
              [("A.sol"%string, [("Lib"%string, [mkRawLinkSlot 1 20])]);
               ("B.sol"%string, [])]
              (str "60__")) as (Hiff & _ & Hnorm).
  split; [apply Hiff | apply Hnorm]; simpl; tauto.
Defined.

(** X7. When [process_link_references] returns, it returns one record per
    source path, in the order of the map: the record is named after the
    first symbol listed under the path, its length is 20, and its offsets
    are the starts of all the slots listed under the path, those of the
    path's other symbols included. Taken together, the offsets of the
    records are the starts of the slots that [process_bytecode] validates
    and replaces, in the same order. *)
Theorem process_link_references_records
    (link_refs : LinkRefs) (bytecode : list ascii) (refs : list LinkReference) :
  process_link_references link_refs bytecode = Ok refs ->
  Forall2 (fun by_name r => head (keys by_name) = Some (name r) /\
                            length_ r = 20 /\
                            offsets r = map start (concat (values by_name)))
          (values link_refs) refs /\
  List.length refs = List.length link_refs /\
  concat (map offsets refs) = map start (all_refs link_refs).
Proof.
  intros Hrun.
  destruct (process_link_references_cases link_refs bytecode)
    as [[_ Hraise]|[_ (refs' & Hrefs & Hall)]]; [congruence|].
  assert (refs' = refs) as -> by congruence. clear Hrun Hrefs.
  split; [done|]. split.
  - apply Forall2_length in Hall. unfold values in Hall.
    by rewrite length_map in Hall.
  - revert refs Hall.
    induction link_refs as [|[path by_name] link_refs IH]; intros refs Hall;
      inversion Hall as [|? r ? refs' (_ & _ & Hoff) Hrest]; subst; [done|].
    simpl. rewrite all_refs_cons, map_app, Hoff. f_equal. by apply IH.
Qed.

Lemma process_link_references_records_witness :
  process_link_references
    [("A.sol"%string, [("LibA"%string, [mkRawLinkSlot 1 20]);
                       ("LibB"%string, [mkRawLinkSlot 30 20])])]
    (str "6060")
  = Ok [mkLinkReference "LibA" 20 [1; 30]] /\
  concat (map offsets [mkLinkReference "LibA" 20 [1; 30]])
  = map start
      (all_refs [("A.sol"%string, [("LibA"%string, [mkRawLinkSlot 1 20]);
                                   ("LibB"%string, [mkRawLinkSlot 30 20])])]).
Proof.
  split; [reflexivity|].
  apply (process_link_references_records
           [("A.sol"%string, [("LibA"%string, [mkRawLinkSlot 1 20]);
                              ("LibB"%string, [mkRawLinkSlot 30 20])])]
           (str "6060")).
  reflexivity.
Defined.

(** X8. An entry that [normalize_bytecode_object] returns always has a
    [bytecode] key, whose value starts with [0x] (or [0X]); it has a
    [link_references] key exactly when the compiler's [linkReferences] is
    not empty. *)
Theorem normalize_bytecode_object_entry
    (obj : BytecodeObject) (entry : dict BytecodeField) :
  normalize_bytecode_object obj = Ok entry ->
  (exists hex, get entry "bytecode" = Some (BytecodeHex hex) /\
               is_0x_prefixed hex = true) /\
  (get entry "link_references" = None <-> linkReferences obj = []).
Proof.
  unfold normalize_bytecode_object.
  destruct (linkReferences obj) as [|kv link_refs] eqn:Hrefs; simpl.
  - intros [= <-]. simpl. split; [|done].
    eexists. split; [reflexivity | apply add_0x_prefix_prefixed].
  - destruct (process_link_references _ _) as [refs|]; simpl; [|discriminate].
    destruct (process_bytecode _ _) as [hex|] eqn:Hhex; simpl; [|discriminate].
    intros [= <-]. simpl. split; [|split; discriminate].
    eexists. split; [reflexivity|].
    by eapply process_bytecode_is_0x_prefixed.
Qed.

Lemma normalize_bytecode_object_entry_witness :
  (exists hex,
      get [("link_references"%string, LinkReferenceList [mkLinkReference "A" 20 [1]]);
           ("bytecode"%string, BytecodeHex (str "0x600000006060"))] "bytecode"
      = Some (BytecodeHex hex) /\
      is_0x_prefixed hex = true) /\
  (get [("link_references"%string, LinkReferenceList [mkLinkReference "A" 20 [1]]);
        ("bytecode"%string, BytecodeHex (str "0x600000006060"))] "link_references"
   = None <->
   [("A.sol"%string, [("A"%string, [mkRawLinkSlot 1 3])])] = []).
Proof.
  apply (normalize_bytecode_object_entry
           (mkBytecodeObject (str "60__AA__6060")
              [("A.sol"%string, [("A"%string, [mkRawLinkSlot 1 3])])])).
  reflexivity.
Defined.

(** X9. Normalizing a bytecode object without link references is
    idempotent: feeding the returned bytecode back, again without link
    references, returns the same entry. *)
Theorem normalize_bytecode_object_idempotent
    (obj : BytecodeObject) (entry : dict BytecodeField) (hex : list ascii) :
  linkReferences obj = [] ->
  normalize_bytecode_object obj = Ok entry ->
  get entry "bytecode" = Some (BytecodeHex hex) ->
  normalize_bytecode_object (mkBytecodeObject hex []) = Ok entry.
Proof.
  intros Hempty. unfold normalize_bytecode_object. rewrite Hempty. simpl.
  intros [= <-]. simpl. intros [= <-].
  by rewrite add_0x_prefix_idempotent.
Qed.

Lemma normalize_bytecode_object_idempotent_witness :
  normalize_bytecode_object (mkBytecodeObject (str "0x6060") [])
  = Ok [("bytecode"%string, BytecodeHex (str "0x6060"))].
Proof.
  apply (normalize_bytecode_object_idempotent (mkBytecodeObject (str "6060") []));
    reflexivity.
Defined.

(** ** Dicts *)

Section Dicts.

Context {V : Type}.
Implicit Types (d l : dict V) (k : string) (v : V).

Lemma getitem_setitem_eq d k v : getitem (setitem d k v) k = Ok v.
Proof.
  induction d as [|[k' v'] d IH]; simpl.
  - by rewrite decide_True.
  - case_decide; simpl; [by rewrite decide_True | by rewrite decide_False].
Qed.

Lemma getitem_setitem_ne d k k' v :
  k <> k' -> getitem (setitem d k v) k' = getitem d k'.
Proof.
  intros Hne. induction d as [|[k0 v0] d IH]; simpl.
  - by rewrite decide_False.
  - case_decide; simpl.
    + subst k0. by rewrite !decide_False.
    + case_decide; [done | exact IH].
Qed.

Lemma setitem_fresh d k v : ~ In k (keys d) -> setitem d k v = d ++ [(k, v)].
Proof.
  induction d as [|[k' v'] d IH]; simpl; [done|].
  intros Hnot. rewrite decide_False by tauto. f_equal. apply IH. tauto.
Qed.

Lemma keys_setitem_In d k v k' :
  In k' (keys (setitem d k v)) <-> k' = k \/ In k' (keys d).
Proof.
  induction d as [|[k0 v0] d IH]; simpl.
  - intuition.
  - case_decide; simpl; [subst; intuition | rewrite IH; intuition].
Qed.

Lemma keys_setitem_NoDup d k v : NoDup (keys d) -> NoDup (keys (setitem d k v)).
Proof.
  induction d as [|[k0 v0] d IH]; simpl; intros Hnd.
  - apply NoDup_singleton.
  - apply NoDup_cons in Hnd as [Hk0 Hnd]. case_decide; simpl.
    + subst. by apply NoDup_cons.
    + apply NoDup_cons. split; [|by apply IH].
      rewrite list_elem_of_In, keys_setitem_In. rewrite list_elem_of_In in Hk0.
      intros [?|?]; [congruence | done].
Qed.

Lemma to_dict_snoc l k v : to_dict (l ++ [(k, v)]) = setitem (to_dict l) k v.
Proof. unfold to_dict. by rewrite fold_left_app. Qed.

Lemma keys_to_dict_NoDup l : NoDup (keys (to_dict l)).
Proof.
  induction l as [|[k v] l IH] using rev_ind; [constructor|].
  rewrite to_dict_snoc. by apply keys_setitem_NoDup.
Qed.

Lemma keys_to_dict_In l k : In k (keys (to_dict l)) <-> In k (keys l).
Proof.
  induction l as [|[k' v'] l IH] using rev_ind; [done|].
  rewrite to_dict_snoc, keys_setitem_In, IH. unfold keys.
  rewrite map_app, in_app_iff. simpl. intuition.
Qed.

(** [dict(pairs)[k]] is a value paired with [k]. *)
Lemma getitem_to_dict_sound l k v : getitem (to_dict l) k = Ok v -> In (k, v) l.
Proof.
  induction l as [|[k' v'] l IH] using rev_ind; [discriminate|].
  rewrite to_dict_snoc, in_app_iff. destruct (decide (k' = k)) as [->|Hne].
  - rewrite getitem_setitem_eq. intros [= ->]. right. by left.
  - rewrite getitem_setitem_ne by done. intros Hget. left. by apply IH.
Qed.

(** The last pair for a key wins. *)
Lemma getitem_to_dict_last l1 l2 k v :
  In (k, v) l2 -> (forall v', In (k, v') l2 -> v' = v) ->
  getitem (to_dict (l1 ++ l2)) k = Ok v.
Proof.
  revert v. induction l2 as [|[k' v'] l2 IH] using rev_ind; intros v Hin Hall.
  - destruct Hin.
  - rewrite app_assoc, to_dict_snoc. destruct (decide (k' = k)) as [->|Hne].
    + rewrite getitem_setitem_eq. f_equal. apply Hall.
      apply in_app_iff. right. by left.
    + rewrite getitem_setitem_ne by done. apply IH.
      * apply in_app_iff in Hin as [Hin|[Heq|[]]]; [done | congruence].
      * intros v0 Hv0. apply Hall. apply in_app_iff. by left.
Qed.

Lemma to_dict_NoDup l : NoDup (keys l) -> to_dict l = l.
Proof.
  induction l as [|[k v] l IH] using rev_ind; intros Hnd; [done|].
  unfold keys in Hnd. rewrite map_app in Hnd.
  apply NoDup_app in Hnd as (Hl & Hdisj & _).
  rewrite to_dict_snoc, IH by done. apply setitem_fresh.
  intros Hin. apply list_elem_of_In in Hin. apply (Hdisj _ Hin). simpl. by left.
Qed.

Lemma getitem_NoDup d k v : NoDup (keys d) -> In (k, v) d -> getitem d k = Ok v.
Proof.
  induction d as [|[k' v'] d IH]; simpl; intros Hnd Hin; [destruct Hin|].
  apply NoDup_cons in Hnd as [Hk' Hnd].
  destruct Hin as [[= -> ->]|Hin]; [by rewrite decide_True|].
  rewrite decide_False; [by apply IH|].
  intros ->. apply Hk'. apply list_elem_of_In.
  change k with (k, v).1. by apply in_map.
Qed.

Lemma getitem_in d k v : getitem d k = Ok v -> In (k, v) d.
Proof.
  induction d as [|[k' v'] d IH]; simpl; [discriminate|].
  case_decide; [intros [= ->]; subst; by left | right; by apply IH].
Qed.

End Dicts.

Section Comprehensions.

Context {A B : Type}.

Lemma traverse_inv (f : A -> result B) (xs : list A) (ys : list B) :
  traverse f xs = Ok ys -> Forall2 (fun x y => f x = Ok y) xs ys.
Proof.
  revert ys. induction xs as [|x xs IH]; simpl; intros ys.
  - intros [= <-]. constructor.
  - destruct (f x) as [y|] eqn:Hy; simpl; [|discriminate].
    destruct (traverse f xs) as [ys'|]; simpl; [|discriminate].
    intros [= <-]. constructor; [done | by apply IH].
Qed.

Lemma traverse_Forall2 (f : A -> result B) (xs : list A) (ys : list B) :
  Forall2 (fun x y => f x = Ok y) xs ys -> traverse f xs = Ok ys.
Proof.
  induction 1 as [|x y xs ys Hxy _ IH]; simpl; [done|].
  by rewrite Hxy, IH.
Qed.

Lemma Forall2_In_l (R : A -> B -> Prop) (xs : list A) (ys : list B) (x : A) :
  Forall2 R xs ys -> In x xs -> exists y, In y ys /\ R x y.
Proof.
  induction 1 as [|x' y' xs ys Hxy _ IH]; intros Hin; [destruct Hin|].
  destruct Hin as [->|Hin].
  - exists y'. split; [by left | done].
  - destruct (IH Hin) as (y & Hy & HR). exists y. split; [by right | done].
Qed.

Lemma Forall2_In_r (R : A -> B -> Prop) (xs : list A) (ys : list B) (y : B) :
  Forall2 R xs ys -> In y ys -> exists x, In x xs /\ R x y.
Proof.
  induction 1 as [|x' y' xs ys Hxy _ IH]; intros Hin; [destruct Hin|].
  destruct Hin as [->|Hin].
  - exists x'. split; [by left | done].
  - destruct (IH Hin) as (x & Hx & HR). exists x. split; [by right | done].
Qed.

End Comprehensions.

(** The comprehension over [compiler_output] and [compiler_output[path]],
    for a dict whose paths are distinct. *)
Lemma traverse_getitem_NoDup {V B} (d : dict V) (F : string -> V -> B) :
  NoDup (keys d) ->
  traverse (fun path => let* v := getitem d path in Ok (F path v)) (keys d)
  = Ok (map (fun kv => F kv.1 kv.2) d).
Proof.
  intros Hnd. apply traverse_Forall2. unfold keys.
  apply Forall2_fmap_l, Forall2_fmap_r, Forall_Forall2_diag, Forall_forall.
  intros [k v] Hin. apply list_elem_of_In in Hin. simpl.
  by rewrite (getitem_NoDup d k v Hnd Hin).
Qed.

(** ** The whole of [normalize_compiler_output] *)

Section CompilerOutputs.

Implicit Types (compiler_output : CompilerOutput).

Lemma paths_and_names_of_NoDup compiler_output :
  NoDup (keys compiler_output) ->
  paths_and_names_of compiler_output
  = Ok (flat_map (fun kv : string * dict ContractTypeData =>
                    map (fun contract_name => (kv.1, contract_name)) (keys kv.2))
                 compiler_output).
Proof.
  intros Hnd. unfold paths_and_names_of.
  rewrite (traverse_getitem_NoDup compiler_output
             (fun path contracts =>
                map (fun contract_name => (path, contract_name)) (keys contracts)) Hnd).
  simpl. by rewrite flat_map_concat_map.
Qed.

Lemma names_of_paths_and_names compiler_output :
  map snd (flat_map (fun kv : string * dict ContractTypeData =>
                       map (fun contract_name => (kv.1, contract_name)) (keys kv.2))
                    compiler_output)
  = flat_map keys (values compiler_output).
Proof.
  induction compiler_output as [|[path contracts] co IH]; simpl; [done|].
  rewrite map_app, IH, map_map. simpl. by rewrite map_id.
Qed.

Lemma NoDup_flat_map_In {A B} (f : A -> list B) (l : list A) (x : A) :
  NoDup (flat_map f l) -> In x l -> NoDup (f x).
Proof.
  induction l as [|a l IH]; simpl; intros Hnd Hin; [destruct Hin|].
  apply NoDup_app in Hnd as (Ha & _ & Hl).
  destruct Hin as [->|Hin]; [done | by apply IH].
Qed.

Lemma getitem_in_values {V} (d : dict V) k v : getitem d k = Ok v -> In v (values d).
Proof.
  intros Hget. apply getitem_in in Hget. change v with (k, v).2. by apply in_map.
Qed.

Lemma traverse_all_nil {A B} (f : A -> result (list B)) (xs : list A) :
  (forall x, In x xs -> f x = Ok []) ->
  exists ys, traverse f xs = Ok ys /\ concat ys = [].
Proof.
  induction xs as [|x xs IH]; intros Hall; simpl.
  - by exists [].
  - rewrite (Hall x) by (by left). simpl.
    destruct IH as (ys & -> & Hnil); [intros; apply Hall; by right|].
    simpl. by exists ([] :: ys).
Qed.

End CompilerOutputs.

(** X10. A compiler output that reports no contract at all, an empty one
    included, makes [normalize_compiler_output] raise [ValueError], from
    unpacking the empty [paths_and_names]; it is not reported as a
    [ManifestBuildingError]. *)
Theorem normalize_compiler_output_without_contracts
    (compiler_output : CompilerOutput) :
  Forall (fun contracts : dict ContractTypeData => contracts = [])
         (values compiler_output) ->
  normalize_compiler_output compiler_output = Raise ValueError.
Proof.
  intros Hall. unfold normalize_compiler_output, paths_and_names_of.
  edestruct (traverse_all_nil
               (fun path =>
                  let* contracts := getitem compiler_output path in
                  Ok (map (fun contract_name => (path, contract_name)) (keys contracts)))
               (keys compiler_output)) as (per_path & Hper & Hnil).
  { intros path Hpath. destruct (getitem_of_key _ _ Hpath) as [contracts Hget].
    rewrite Hget. simpl. rewrite List.Forall_forall in Hall.
    by rewrite (Hall _ (getitem_in_values _ _ _ Hget)). }
  rewrite Hper. simpl. by rewrite Hnil.
Qed.

Lemma normalize_compiler_output_without_contracts_witness :
  normalize_compiler_output [] = Raise ValueError /\
  normalize_compiler_output [("A.sol"%string, []); ("B.sol"%string, [])]
  = Raise ValueError.
Proof.
  split.
  - apply (normalize_compiler_output_without_contracts []). constructor.
  - apply (normalize_compiler_output_without_contracts
             [("A.sol"%string, []); ("B.sol"%string, [])]).
    repeat constructor.
Defined.

(** X11. When [normalize_compiler_output] returns, for a compiler output
    whose paths are distinct, the keys of the result are the contract names
    in the order the compiler output lists them, they are distinct, and
    every contract of the compiler output has normalized: the result maps
    its name to what [normalize_contract_type] returns for it. So one
    contract that does not normalize keeps the call from returning. *)
Theorem normalize_compiler_output_returns
    (compiler_output : CompilerOutput) (by_name : dict (dict ContractField)) :
  NoDup (keys compiler_output) ->
  normalize_compiler_output compiler_output = Ok by_name ->
  keys by_name = flat_map keys (values compiler_output) /\
  NoDup (keys by_name) /\
  (forall path contracts contract_name data,
      In (path, contracts) compiler_output ->
      In (contract_name, data) contracts ->
      exists normalized,
        normalize_contract_type data = Ok normalized /\
        getitem by_name contract_name = Ok normalized).
Proof.
  intros Hpaths. unfold normalize_compiler_output.
  rewrite (paths_and_names_of_NoDup _ Hpaths). simpl.
  set (pns := flat_map _ compiler_output).
  destruct pns as [|pn pns'] eqn:Hpns; [discriminate|]. rewrite <- Hpns. clear Hpns.
  destruct (Nat.eqb_spec (List.length (map snd pns)) (len_set (map snd pns)))
    as [Hlen|_]; simpl; [|discriminate].
  symmetry in Hlen. apply len_set_NoDup in Hlen.
  destruct (traverse _ pns) as [entries|] eqn:Hentries; simpl; [|discriminate].
  intros [= <-]. apply traverse_inv in Hentries.
  assert (Hkeys : keys entries = map snd pns).
  { clear -Hentries. induction Hentries as [|pn e pns entries He _ IH]; [done|].
    simpl. rewrite IH. f_equal.
    destruct (getitem compiler_output pn.1); simpl in He; [|discriminate].
    destruct (getitem a pn.2); simpl in He; [|discriminate].
    destruct (normalize_contract_type a0); simpl in He; [|discriminate].
    by injection He as <-. }
  assert (Hnd : NoDup (keys entries)) by (by rewrite Hkeys).
  rewrite (to_dict_NoDup _ Hnd).
  split; [by rewrite Hkeys; apply names_of_paths_and_names|]. split; [done|].
  intros path contracts contract_name data Hpath Hname.
  assert (Hin : In (path, contract_name) pns).
  { apply in_flat_map. exists (path, contracts). split; [done|]. simpl.
    apply in_map. change contract_name with (contract_name, data).1. by apply in_map. }
  destruct (Forall2_In_l _ _ _ _ Hentries Hin) as (e & He & Hrun). simpl in Hrun.
  rewrite (getitem_NoDup _ _ _ Hpaths Hpath) in Hrun. simpl in Hrun.
  assert (Hcontracts : NoDup (keys contracts)).
  { unfold pns in Hlen. rewrite names_of_paths_and_names in Hlen.
    apply (NoDup_flat_map_In keys (values compiler_output) contracts Hlen).
    change contracts with (path, contracts).2. by apply in_map. }
  rewrite (getitem_NoDup _ _ _ Hcontracts Hname) in Hrun. simpl in Hrun.
  destruct (normalize_contract_type data) as [normalized|]; simpl in Hrun;
    [|discriminate].
  injection Hrun as <-. exists normalized. split; [done|].
  by apply getitem_NoDup.
Qed.

Lemma normalize_compiler_output_returns_witness :
  let owned := mkContractTypeData "[]" (mkBytecodeObject (str "6060") []) in
  let token :=
    mkContractTypeData "[{}]"
      (mkBytecodeObject (str "60__AA__")
         [("Lib.sol"%string, [("Lib"%string, [mkRawLinkSlot 1 3])])]) in
  let by_name :=
    [("Owned"%string,
      [("abi"%string, Abi "[]");
       ("deployment_bytecode"%string,
        DeploymentBytecode [("bytecode"%string, BytecodeHex (str "0x6060"))]);
       ("natspec"%string, Natspec)]);
     ("Token"%string,
      [("abi"%string, Abi "[{}]");
       ("deployment_bytecode"%string,
        DeploymentBytecode
          [("link_references"%string, LinkReferenceList [mkLinkReference "Lib" 20 [1]]);
           ("bytecode"%string, BytecodeHex (str "0x60000000"))]);
       ("natspec"%string, Natspec)])] in
  keys by_name = ["Owned"%string; "Token"%string] /\
  NoDup (keys by_name) /\
  (forall path contracts contract_name data,
      In (path, contracts)
         [("Owned.sol"%string, [("Owned"%string, owned)]);
          ("Token.sol"%string, [("Token"%string, token)])] ->
      In (contract_name, data) contracts ->
      exists normalized,
        normalize_contract_type data = Ok normalized /\
        getitem by_name contract_name = Ok normalized).
Proof.
  cbv zeta.
  apply (normalize_compiler_output_returns
           [("Owned.sol"%string,
             [("Owned"%string, mkContractTypeData "[]" (mkBytecodeObject (str "6060") []))]);
            ("Token.sol"%string,
             [("Token"%string,
               mkContractTypeData "[{}]"
                 (mkBytecodeObject (str "60__AA__")
                    [("Lib.sol"%string, [("Lib"%string, [mkRawLinkSlot 1 3])])]))])]).
  - simpl. apply NoDup_cons. split; [|apply NoDup_singleton].
    intros Hin. apply list_elem_of_In in Hin. destruct Hin as [Heq|[]]. discriminate Heq.
  - reflexivity.
Defined.

(** ** Names and paths *)

Section NamesAndPaths.

Implicit Types (compiler_output : CompilerOutput).

(** The pairs that the comprehension of [get_names_and_paths] goes through. *)
Lemma get_names_and_paths_pairs compiler_output :
  exists pairs,
    get_names_and_paths compiler_output = Ok (to_dict pairs) /\
    (forall contract_name path,
        In (contract_name, path) pairs <->
        exists contracts,
          getitem compiler_output path = Ok contracts /\
          In contract_name (keys contracts)).
Proof.
  unfold get_names_and_paths.
  set (f := fun path =>
              let* contracts := getitem compiler_output path in
              Ok (map (fun contract_name => (contract_name, path)) (keys contracts))).
  destruct (traverse_ok f (keys compiler_output)) as (per_path & Hper & _).
  { intros path Hpath. destruct (getitem_of_key _ _ Hpath) as [contracts Hget].
    unfold f. rewrite Hget. by eexists. }
  rewrite Hper. simpl. eexists. split; [reflexivity|].
  apply traverse_inv in Hper. intros contract_name path. rewrite in_concat. split.
  - intros (chunk & Hchunk & Hin).
    destruct (Forall2_In_r _ _ _ _ Hper Hchunk) as (path' & _ & Hrun).
    unfold f in Hrun. destruct (getitem compiler_output path') as [contracts|] eqn:Hget;
      simpl in Hrun; [|discriminate].
    injection Hrun as <-. apply in_map_iff in Hin as (n & [= -> ->] & Hn).
    by exists contracts.
  - intros (contracts & Hget & Hname).
    destruct (Forall2_In_l _ _ _ _ Hper (getitem_in_keys _ _ _ Hget)) as (chunk & Hchunk & Hrun).
    unfold f in Hrun. rewrite Hget in Hrun. simpl in Hrun. injection Hrun as <-.
    eexists. split; [exact Hchunk|].
    apply in_map_iff. by exists contract_name.
Qed.

Lemma get_names_and_paths_NoDup compiler_output :
  NoDup (keys compiler_output) ->
  get_names_and_paths compiler_output
  = Ok (to_dict
          (flat_map (fun kv : string * dict ContractTypeData =>
                       map (fun contract_name => (contract_name, kv.1)) (keys kv.2))
                    compiler_output)).
Proof.
  intros Hnd. unfold get_names_and_paths.
  rewrite (traverse_getitem_NoDup compiler_output
             (fun path contracts =>
                map (fun contract_name => (contract_name, path)) (keys contracts)) Hnd).
  simpl. by rewrite flat_map_concat_map.
Qed.

End NamesAndPaths.

(** X12. [get_names_and_paths] always returns, duplicate contract names and
    an empty compiler output included. The names of the mapping are
    distinct and are exactly the contract names that the compiler output
    reports, and the path a name is mapped to is one that reports it. *)
Theorem get_names_and_paths_sound (compiler_output : CompilerOutput) :
  exists names_and_paths,
    get_names_and_paths compiler_output = Ok names_and_paths /\
    NoDup (keys names_and_paths) /\
    (forall contract_name,
        In contract_name (keys names_and_paths) <->
        exists path contracts,
          getitem compiler_output path = Ok contracts /\
          In contract_name (keys contracts)) /\
    (forall contract_name path,
        getitem names_and_paths contract_name = Ok path ->
        exists contracts,
          getitem compiler_output path = Ok contracts /\
          In contract_name (keys contracts)).
Proof.
  destruct (get_names_and_paths_pairs compiler_output) as (pairs & Hrun & Hpairs).
  exists (to_dict pairs). split; [done|]. split; [apply keys_to_dict_NoDup|]. split.
  - intros contract_name. rewrite keys_to_dict_In. unfold keys. rewrite in_map_iff.
    split.
    + intros ([n path] & Hfst & Hin). simpl in Hfst. subst n.
      exists path. by apply Hpairs.
    + intros (path & Hex). exists (contract_name, path). split; [done|].
      by apply Hpairs.
  - intros contract_name path Hget. apply Hpairs. by apply getitem_to_dict_sound.
Qed.

Lemma get_names_and_paths_sound_witness :
  let owned := mkContractTypeData "[]" (mkBytecodeObject (str "6060") []) in
  exists names_and_paths,
    get_names_and_paths
      [("a/Owned.sol"%string, [("Owned"%string, owned)]);
       ("b/Owned.sol"%string, [("Owned"%string, owned); ("Token"%string, owned)])]
    = Ok names_and_paths /\
    NoDup (keys names_and_paths) /\
    In "Token"%string (keys names_and_paths).
Proof.
  cbv zeta.
  destruct (get_names_and_paths_sound
              [("a/Owned.sol"%string,
                [("Owned"%string,
                  mkContractTypeData "[]" (mkBytecodeObject (str "6060") []))]);
               ("b/Owned.sol"%string,
                [("Owned"%string,
                  mkContractTypeData "[]" (mkBytecodeObject (str "6060") []));
                 ("Token"%string,
                  mkContractTypeData "[]" (mkBytecodeObject (str "6060") []))])])
    as (names_and_paths & Hrun & Hnd & Hnames & _).
  exists names_and_paths. split; [exact Hrun|]. split; [exact Hnd|].
  apply Hnames. exists "b/Owned.sol"%string. eexists. split; [reflexivity|].
  simpl. tauto.
Defined.

(** X13. Where [normalize_compiler_output] raises for a contract name that
    two paths report, [get_names_and_paths] keeps quiet: the name is mapped
    to the last path that reports it. *)
Theorem get_names_and_paths_last_path_wins
    (before after : CompilerOutput) (path contract_name : string)
    (contracts : dict ContractTypeData) :
  NoDup (keys (before ++ (path, contracts) :: after)) ->
  In contract_name (keys contracts) ->
  (forall later, In later (values after) -> ~ In contract_name (keys later)) ->
  exists names_and_paths,
    get_names_and_paths (before ++ (path, contracts) :: after) = Ok names_and_paths /\
    getitem names_and_paths contract_name = Ok path.
Proof.
  intros Hnd Hname Hlater. rewrite (get_names_and_paths_NoDup _ Hnd).
  eexists. split; [reflexivity|].
  rewrite flat_map_app. apply getitem_to_dict_last.
  - simpl. apply in_app_iff. left. apply in_map_iff. by exists contract_name.
  - intros path' Hin. simpl in Hin. apply in_app_iff in Hin as [Hin|Hin].
    + by apply in_map_iff in Hin as (n & [= _ ->] & _).
    + exfalso. apply in_flat_map in Hin as ([p later] & Hp & Hin).
      apply in_map_iff in Hin as (n & [= -> _] & Hn).
      apply (Hlater later); [|done].
      change later with (p, later).2. by apply in_map.
Qed.

Lemma get_names_and_paths_last_path_wins_witness :
  let owned := mkContractTypeData "[]" (mkBytecodeObject (str "6060") []) in
  exists names_and_paths,
    get_names_and_paths
      ([("a/Owned.sol"%string, [("Owned"%string, owned)])]
         ++ ("b/Owned.sol"%string, [("Owned"%string, owned)])
         :: [("Token.sol"%string, [("Token"%string, owned)])])
    = Ok names_and_paths /\
    getitem names_and_paths "Owned" = Ok "b/Owned.sol"%string.
Proof.
  cbv zeta.
  apply (get_names_and_paths_last_path_wins
           [("a/Owned.sol"%string,
             [("Owned"%string, mkContractTypeData "[]" (mkBytecodeObject (str "6060") []))])]
           [("Token.sol"%string,
             [("Token"%string, mkContractTypeData "[]" (mkBytecodeObject (str "6060") []))])]
           "b/Owned.sol" "Owned").
  - apply (bool_decide_unpack _). vm_compute. exact I.
  - simpl. tauto.
  - intros later [<-|[]]. simpl. intros [Heq|[]]. discriminate Heq.
Defined.

(** ** Contract types of the manifest *)

Section ContractTypes.

Lemma getitem_raises {V} (d : dict V) k e :
  getitem d k = Raise e -> e = KeyError /\ ~ In k (keys d).
Proof.
  induction d as [|[k' v'] d IH]; simpl.
  - intros [= <-]. tauto.
  - case_decide; [discriminate|]. intros Hget. destruct (IH Hget) as [-> Hnot].
    split; [done|]. intros [?|?]; [congruence | done].
Qed.

Lemma normalize_contract_type_fields (data : ContractTypeData) normalized :
  normalize_contract_type data = Ok normalized ->
  exists b, normalized = [("abi"%string, Abi (abi data));
                          ("deployment_bytecode"%string, DeploymentBytecode b);
                          ("natspec"%string, Natspec)].
Proof.
  unfold normalize_contract_type.
  destruct (normalize_bytecode_object _) as [b|]; simpl; [|discriminate].
  intros [= <-]. by exists b.
Qed.

(** Every entry of a normalized compiler output has the three fields that
    [normalize_contract_type] yields, and no other. *)
Lemma normalize_compiler_output_fields
    (compiler_output : CompilerOutput) by_name contract_name normalized :
  normalize_compiler_output compiler_output = Ok by_name ->
  getitem by_name contract_name = Ok normalized ->
  exists a b, normalized = [("abi"%string, Abi a);
                            ("deployment_bytecode"%string, DeploymentBytecode b);
                            ("natspec"%string, Natspec)].
Proof.
  unfold normalize_compiler_output.
  destruct (paths_and_names_of compiler_output) as [pns|]; simpl; [|discriminate].
  destruct pns as [|pn pns]; [discriminate|].
  destruct (negb _); [discriminate|].
  destruct (traverse _ (pn :: pns)) as [entries|] eqn:Hentries; simpl; [|discriminate].
  intros [= <-] Hget. apply getitem_to_dict_sound in Hget.
  apply traverse_inv in Hentries.
  destruct (Forall2_In_r _ _ _ _ Hentries Hget) as (pn' & _ & Hrun). simpl in Hrun.
  destruct (getitem compiler_output pn'.1) as [contracts|]; simpl in Hrun; [|discriminate].
  destruct (getitem contracts pn'.2) as [data|]; simpl in Hrun; [|discriminate].
  destruct (normalize_contract_type data) as [n|] eqn:Hn; simpl in Hrun; [|discriminate].
  injection Hrun as _ <-.
  destruct (normalize_contract_type_fields _ _ Hn) as [b ->]. by exists (abi data), b.
Qed.

End ContractTypes.

(** X14. [_contract_type] raises in two cases only: when
    [normalize_compiler_output] raises, with the same exception
    ([ValueError] for a compiler output without contracts, for one), and
    when the normalized output has no contract of the given name, with
    [ManifestBuildingError]. *)
Theorem contract_type_raises
    (Manifest : Type)
    (assoc_in : Manifest -> list string -> dict ManifestContractField -> Manifest)
    (contract_name : string) (compiler_output : CompilerOutput)
    (alias : option string) (selected_fields : list string) (manifest : Manifest)
    (e : exn) :
  _contract_type Manifest assoc_in contract_name compiler_output alias
                 selected_fields manifest = Raise e <->
  normalize_compiler_output compiler_output = Raise e \/
  (exists by_name,
      normalize_compiler_output compiler_output = Ok by_name /\
      ~ In contract_name (keys by_name) /\
      e = ManifestBuildingError).
Proof.
  unfold _contract_type.
  destruct (normalize_compiler_output compiler_output) as [by_name|e0]; simpl.
  - destruct (getitem by_name contract_name) as [data|e1] eqn:Hget; simpl.
    + destruct (truthy_str alias); split; [discriminate| |discriminate|];
        intros [?|(by_name' & [= <-] & Hnot & _)]; try discriminate;
        destruct Hnot; by eapply getitem_in_keys.
    + destruct (getitem_raises _ _ _ Hget) as [-> Hnot]. simpl. split.
      * intros [= <-]. right. by exists by_name.
      * intros [?|(_ & _ & _ & ->)]; [discriminate | done].
  - split; [intros [= ->]; by left|].
    intros [[= ->]|(? & ? & _)]; [done | discriminate].
Qed.

Lemma contract_type_raises_witness :
  let owned := mkContractTypeData "[]" (mkBytecodeObject (str "6060") []) in
  _contract_type (list (list string * dict ManifestContractField))
                 (fun manifest ks v => (ks, v) :: manifest)
                 "Token" [("Owned.sol"%string, [("Owned"%string, owned)])]
                 None [] []
  = Raise ManifestBuildingError /\
  _contract_type (list (list string * dict ManifestContractField))
                 (fun manifest ks v => (ks, v) :: manifest)
                 "Owned" [] None [] []
  = Raise ValueError.
Proof.
  cbv zeta. split.
  - apply contract_type_raises. right. eexists. split; [reflexivity|].
    split; [|reflexivity]. simpl. intros [Heq|[]]. discriminate Heq.
  - apply contract_type_raises. left. reflexivity.
Defined.

(** X15. What [contract_type] stores, without an alias, for a contract that
    the normalized compiler output holds: with no flag set, the three
    fields [abi], [deployment_bytecode] and [natspec]; with some flag set,
    those of the three whose flag is set, in that order. The flags
    [compiler], [contract_type] and [runtime_bytecode] select nothing, so
    setting only these stores an empty contract type. *)
Theorem contract_type_selected_fields
    (Manifest : Type)
    (assoc_in : Manifest -> list string -> dict ManifestContractField -> Manifest)
    (contract_name : string) (compiler_output : CompilerOutput)
    (by_name : dict (dict ContractField)) (data : dict ContractField)
    (abi compiler contract_type_flag deployment_bytecode natspec runtime_bytecode : bool)
    (manifest : Manifest) :
  normalize_compiler_output compiler_output = Ok by_name ->
  getitem by_name contract_name = Ok data ->
  exists a b,
    data = [("abi"%string, Abi a);
            ("deployment_bytecode"%string, DeploymentBytecode b);
            ("natspec"%string, Natspec)] /\
    contract_type Manifest assoc_in contract_name compiler_output None
                  abi compiler contract_type_flag deployment_bytecode natspec
                  runtime_bytecode manifest
    = Ok (assoc_in manifest ["contract_types"%string; contract_name]
            (if abi || compiler || contract_type_flag || deployment_bytecode
                || natspec || runtime_bytecode
             then (if abi then [("abi"%string, Normalized (Abi a))] else [])
                    ++ (if deployment_bytecode
                        then [("deployment_bytecode"%string,
                               Normalized (DeploymentBytecode b))]
                        else [])
                    ++ (if natspec then [("natspec"%string, Normalized Natspec)] else [])
             else [("abi"%string, Normalized (Abi a));
                   ("deployment_bytecode"%string, Normalized (DeploymentBytecode b));
                   ("natspec"%string, Normalized Natspec)])).
Proof.
  intros Hnorm Hget.
  destruct (normalize_compiler_output_fields _ _ _ _ Hnorm Hget) as (a & b & ->).
  exists a, b. split; [done|].
  unfold contract_type, _contract_type. rewrite Hnorm. simpl. rewrite Hget. simpl.
  destruct abi, compiler, contract_type_flag, deployment_bytecode, natspec,
    runtime_bytecode; reflexivity.
Qed.

Lemma contract_type_selected_fields_witness :
  let owned := mkContractTypeData "[]" (mkBytecodeObject (str "6060") []) in
  let compiler_output := [("Owned.sol"%string, [("Owned"%string, owned)])] in
  let assoc_in := fun (manifest : list (list string * dict ManifestContractField)) ks v =>
                    (ks, v) :: manifest in
  contract_type _ assoc_in "Owned" compiler_output None
                true false false false false false []
  = Ok [(["contract_types"%string; "Owned"%string],
         [("abi"%string, Normalized (Abi "[]"))])] /\
  contract_type _ assoc_in "Owned" compiler_output None
                false true false false false true []
  = Ok [(["contract_types"%string; "Owned"%string], [])].
Proof.
  cbv zeta. split.
  - destruct (contract_type_selected_fields
                (list (list string * dict ManifestContractField))
                (fun manifest ks v => (ks, v) :: manifest)
                "Owned"
                [("Owned.sol"%string,
                  [("Owned"%string,
                    mkContractTypeData "[]" (mkBytecodeObject (str "6060") []))])]
                _ _ true false false false false false []
                eq_refl eq_refl) as (a & b & Hdata & Hrun).
    injection Hdata as <- <-. exact Hrun.
  - destruct (contract_type_selected_fields
                (list (list string * dict ManifestContractField))
                (fun manifest ks v => (ks, v) :: manifest)
                "Owned"
                [("Owned.sol"%string,
                  [("Owned"%string,
                    mkContractTypeData "[]" (mkBytecodeObject (str "6060") []))])]
                _ _ false true false false false true []
                eq_refl eq_refl) as (a & b & Hdata & Hrun).
    exact Hrun.
Defined.

(** X16. With an alias that is not empty, [_contract_type] stores the
    contract type under the alias and adds the contract name to it under
    [contract_type], after the selected fields; an empty alias is treated
    as no alias. *)
Theorem contract_type_alias
    (Manifest : Type)
    (assoc_in : Manifest -> list string -> dict ManifestContractField -> Manifest)
    (contract_name : string) (compiler_output : CompilerOutput)
    (by_name : dict (dict ContractField)) (data : dict ContractField)
    (c : ascii) (alias : string) (selected_fields : list string) (manifest : Manifest) :
  normalize_compiler_output compiler_output = Ok by_name ->
  getitem by_name contract_name = Ok data ->
  let selected :=
    match selected_fields with
    | [] => data
    | _ :: _ => List.filter (fun kv : string * ContractField =>
                               bool_decide (kv.1 ∈ selected_fields)) data
    end in
  _contract_type Manifest assoc_in contract_name compiler_output
                 (Some (String c alias)) selected_fields manifest
  = Ok (assoc_in manifest ["contract_types"%string; String c alias]
          (map (fun kv : string * ContractField => (kv.1, Normalized kv.2)) selected
             ++ [("contract_type"%string, ContractTypeName contract_name)])) /\
  _contract_type Manifest assoc_in contract_name compiler_output
                 (Some EmptyString) selected_fields manifest
  = _contract_type Manifest assoc_in contract_name compiler_output
                   None selected_fields manifest.
Proof.
  intros Hnorm Hget selected. split; [|reflexivity].
  unfold _contract_type. rewrite Hnorm. simpl. rewrite Hget. simpl.
  do 2 f_equal. fold selected. apply setitem_fresh.
  destruct (normalize_compiler_output_fields _ _ _ _ Hnorm Hget) as (a & b & ->).
  unfold keys. rewrite map_map. simpl. intros Hin. apply in_map_iff in Hin as (kv & Hk & Hin).
  assert (Hdata : In kv [("abi"%string, Abi a);
                         ("deployment_bytecode"%string, DeploymentBytecode b);
                         ("natspec"%string, Natspec)]).
  { subst selected. destruct selected_fields; [done|].
    by apply filter_In in Hin as [? _]. }
  destruct Hdata as [<-|[<-|[<-|[]]]]; discriminate Hk.
Qed.

Lemma contract_type_alias_witness :
  let owned := mkContractTypeData "[]" (mkBytecodeObject (str "6060") []) in
  _contract_type (list (list string * dict ManifestContractField))
                 (fun manifest ks v => (ks, v) :: manifest)
                 "Owned" [("Owned.sol"%string, [("Owned"%string, owned)])]
                 (Some "OwnedAlias"%string) ["abi"%string] []
  = Ok [(["contract_types"%string; "OwnedAlias"%string],
         [("abi"%string, Normalized (Abi "[]"));
          ("contract_type"%string, ContractTypeName "Owned")])].
Proof.
  cbv zeta.
  apply (contract_type_alias
           (list (list string * dict ManifestContractField))
           (fun manifest ks v => (ks, v) :: manifest)
           "Owned"
           [("Owned.sol"%string,
             [("Owned"%string, mkContractTypeData "[]" (mkBytecodeObject (str "6060") []))])]
           _ _ "O" "wnedAlias" ["abi"%string] [] eq_refl eq_refl).
Defined.

(** * Properties of ethpm/utils/ipfs.py *)

Section IpfsPaths.

Import Ipfs.

Implicit Types (s : list ascii).

Lemma rstrip_slash_last s : last (rstrip_slash s) <> Some "/"%char.
Proof.
  induction s as [|c s IH]; simpl; [done|].
  destruct (rstrip_slash s) as [|c' r].
  - case_decide; simpl; congruence.
  - exact IH.
Qed.

Lemma rstrip_slash_nil s : rstrip_slash s = [] <-> Forall (fun c => c = "/"%char) s.
Proof.
  induction s as [|c s IH]; simpl; [split; [constructor | done]|].
  rewrite Forall_cons. destruct (rstrip_slash s) as [|c' r].
  - case_decide.
    + split; [intros _; split; [done | by apply IH] | done].
    + split; [done | intros [? _]; done].
  - split; [done|]. intros [_ Hall]. by apply IH in Hall.
Qed.

Lemma lstrip_slash_all s :
  Forall (fun c => c = "/"%char) (lstrip_slash s) <-> Forall (fun c => c = "/"%char) s.
Proof.
  induction s as [|c s IH]; simpl; [done|].
  case_decide; [|done]. rewrite IH, Forall_cons. tauto.
Qed.

Lemma strip_slash_nil s : strip_slash s = [] <-> Forall (fun c => c = "/"%char) s.
Proof. unfold strip_slash. by rewrite rstrip_slash_nil, lstrip_slash_all. Qed.

Lemma rstrip_slash_snoc s : rstrip_slash (s ++ ["/"%char]) = rstrip_slash s.
Proof.
  induction s as [|c s IH]; simpl; [done|]. by rewrite IH.
Qed.

Lemma strip_slash_snoc s : strip_slash (s ++ ["/"%char]) = strip_slash s.
Proof.
  unfold strip_slash. induction s as [|c s IH]; simpl; [done|].
  case_decide; [exact IH|].
  change (c :: s ++ ["/"%char]) with ((c :: s) ++ ["/"%char]).
  apply rstrip_slash_snoc.
Qed.

End IpfsPaths.

(** X17. The path that [extract_ipfs_path_from_uri] returns never ends with
    a slash, given that the [netloc] of the parsed URI holds none (as is the
    case for [urlparse]). *)
Theorem extract_ipfs_path_from_uri_no_trailing_slash
    (urlparse : list ascii -> Ipfs.ParseResult) (value : list ascii) :
  ~ In "/"%char (Ipfs.netloc (urlparse value)) ->
  last (Ipfs.extract_ipfs_path_from_uri urlparse value) <> Some "/"%char.
Proof.
  intros Hnetloc. unfold Ipfs.extract_ipfs_path_from_uri.
  assert (Hlast : last (Ipfs.netloc (urlparse value)) <> Some "/"%char).
  { intros Hl. apply Hnetloc. apply list_elem_of_In.
    apply last_Some in Hl as [l' ->]. apply elem_of_app. right. by left. }
  destruct (Ipfs.nonempty (Ipfs.netloc (urlparse value))).
  - destruct (Ipfs.nonempty (Ipfs.path (urlparse value))); [|done].
    pose proof (rstrip_slash_last (Ipfs.path (urlparse value))) as Hr.
    destruct (Ipfs.rstrip_slash (Ipfs.path (urlparse value))) as [|c r] eqn:Hstrip.
    + by rewrite app_nil_r.
    + by rewrite last_app_cons.
  - apply rstrip_slash_last.
Qed.

Lemma extract_ipfs_path_from_uri_no_trailing_slash_witness :
  let urlparse := fun _ : list ascii =>
                    Ipfs.mkParseResult (str "ipfs") (str "QmTKB75Y") (str "/readme/") in
  Ipfs.extract_ipfs_path_from_uri urlparse (str "ipfs://QmTKB75Y/readme/")
  = str "QmTKB75Y/readme" /\
  last (Ipfs.extract_ipfs_path_from_uri urlparse (str "ipfs://QmTKB75Y/readme/"))
  <> Some "/"%char.
Proof.
  cbv zeta. split; [reflexivity|].
  apply (extract_ipfs_path_from_uri_no_trailing_slash
           (fun _ => Ipfs.mkParseResult (str "ipfs") (str "QmTKB75Y") (str "/readme/"))).
  simpl. intros Hin. repeat (destruct Hin as [Heq|Hin]; [discriminate Heq|]). done.
Defined.

(** X18. A URI that [is_ipfs_uri] accepts has the scheme [ipfs], but the
    path that [extract_ipfs_path_from_uri] returns for it can be empty:
    that is so exactly when the parsed URI has no [netloc] and a [path] of
    slashes only. *)
Theorem is_ipfs_uri_empty_path
    (urlparse : list ascii -> Ipfs.ParseResult) (value : list ascii) :
  Ipfs.is_ipfs_uri urlparse value = true ->
  Ipfs.scheme (urlparse value) = str "ipfs" /\
  (Ipfs.extract_ipfs_path_from_uri urlparse value = [] <->
   Ipfs.netloc (urlparse value) = [] /\
   Ipfs.path (urlparse value) <> [] /\
   Forall (fun c => c = "/"%char) (Ipfs.path (urlparse value))).
Proof.
  unfold Ipfs.is_ipfs_uri, Ipfs.extract_ipfs_path_from_uri.
  destruct (str_ne _ _) eqn:Hscheme; [discriminate|].
  assert (Hs : Ipfs.scheme (urlparse value) = str "ipfs").
  { destruct (decide (Ipfs.scheme (urlparse value) = str "ipfs")) as [|Hne]; [done|].
    apply str_ne_true in Hne. congruence. }
  destruct (Ipfs.netloc (urlparse value)) as [|c netloc]; simpl.
  - destruct (Ipfs.path (urlparse value)) as [|c path] eqn:Hpath; simpl; [discriminate|].
    intros _. split; [done|]. rewrite strip_slash_nil. split; [by intros ? | tauto].
  - intros _. split; [done|].
    destruct (Ipfs.nonempty (Ipfs.path (urlparse value))); split; try discriminate;
      intros [Hnil _]; discriminate Hnil.
Qed.

Lemma is_ipfs_uri_empty_path_witness :
  let urlparse := fun _ : list ascii => Ipfs.mkParseResult (str "ipfs") [] (str "/") in
  Ipfs.is_ipfs_uri urlparse (str "ipfs:/") = true /\
  Ipfs.extract_ipfs_path_from_uri urlparse (str "ipfs:/") = [].
Proof.
  cbv zeta. split; [reflexivity|].
  apply (is_ipfs_uri_empty_path
           (fun _ => Ipfs.mkParseResult (str "ipfs") [] (str "/")) (str "ipfs:/"));
    [reflexivity|].
  simpl. split; [done|]. split; [discriminate | repeat constructor].
Defined.

(** X19. A trailing slash of the parsed path does not count: two URIs whose
    parse results differ by one more slash at the end of the path have the
    same IPFS path. *)
Theorem extract_ipfs_path_from_uri_ignores_trailing_slash
    (urlparse : list ascii -> Ipfs.ParseResult) (value value' : list ascii) :
  Ipfs.netloc (urlparse value') = Ipfs.netloc (urlparse value) ->
  Ipfs.path (urlparse value') = Ipfs.path (urlparse value) ++ ["/"%char] ->
  Ipfs.extract_ipfs_path_from_uri urlparse value'
  = Ipfs.extract_ipfs_path_from_uri urlparse value.
Proof.
  intros Hnetloc Hpath. unfold Ipfs.extract_ipfs_path_from_uri.
  rewrite Hnetloc, Hpath, strip_slash_snoc.
  destruct (Ipfs.nonempty (Ipfs.netloc (urlparse value))); [|done].
  destruct (Ipfs.path (urlparse value)) as [|c path]; simpl Ipfs.nonempty.
  - simpl. by rewrite app_nil_r.
  - change (c :: path ++ ["/"%char]) with ((c :: path) ++ ["/"%char]).
    by rewrite rstrip_slash_snoc.
Qed.

Lemma extract_ipfs_path_from_uri_ignores_trailing_slash_witness :
  let urlparse := fun value : list ascii =>
                    if decide (value = str "ipfs://Qm/a/")
                    then Ipfs.mkParseResult (str "ipfs") (str "Qm") (str "/a/")
                    else Ipfs.mkParseResult (str "ipfs") (str "Qm") (str "/a") in
  Ipfs.extract_ipfs_path_from_uri urlparse (str "ipfs://Qm/a/")
  = Ipfs.extract_ipfs_path_from_uri urlparse (str "ipfs://Qm/a").
Proof.
  cbv zeta.
  apply (extract_ipfs_path_from_uri_ignores_trailing_slash
           (fun value : list ascii =>
              if decide (value = str "ipfs://Qm/a/")
              then Ipfs.mkParseResult (str "ipfs") (str "Qm") (str "/a/")
              else Ipfs.mkParseResult (str "ipfs") (str "Qm") (str "/a")));
    [reflexivity | reflexivity].
Defined.
